(** * Color Converter: a shallow embedding of [color_converter.py]

    The plugin converts a color typed into the launcher between the
    systems rgb, hex, yiq, hls, hsl and hsv.  This development embeds
    the parsers, the converters (with the functions of Python's
    [colorsys] they call), the item construction, [run] and
    [handleQuery], and states the properties of the specification on
    them.

    Python values are modelled as follows.
    - [str] is [string]: the UTF-8 bytes of the text.  The program only
      compares against and removes ASCII substrings and the degree sign,
      slices the first three characters to compare them with ASCII
      tags, and measures and slices a token only where it keeps ASCII
      tokens, so bytes and code points agree on every path of [run];
      [float] and [int] read the code points of the text they are given.
    - [float] is an instance of the class [PyFloat]: [float] (IEEE
      binary64, the machine arithmetic of CPython) or [Q] (the exact
      arithmetic the conversion formulas are written for).
    - An exception is a value of [exn]; a computation that may raise
      returns [result].
    - The module global [color_file_location], the temporary directory
      and the host's log sink form the record [world], which is threaded
      through [run] and [handleQuery]. *)

From Stdlib Require Import ZArith QArith Qround Qabs Lqa Lia Floats String Ascii List Bool.
From stdpp Require Import base option gmap strings pretty.
Import ListNotations.

Local Open Scope string_scope.
Local Open Scope Z_scope.

(** ** Exceptions *)

(** The exception classes the modelled operations raise, and two classes
    that derive from [BaseException] only, which [except Exception]
    lets through. *)
Inductive exn : Type :=
  | TypeError
  | ValueError
  | ZeroDivisionError
  | OverflowError
  | KeyError
  | IndexError
  | FileNotFoundError
  | KeyboardInterrupt
  | SystemExit.

(** [isinstance(e, Exception)] *)
Definition is_Exception (e : exn) : bool :=
  match e with
  | KeyboardInterrupt | SystemExit => false
  | _ => true
  end.

Inductive result (A : Type) : Type :=
  | Ok (a : A)
  | Raise (e : exn).
Arguments Ok {A} a.
Arguments Raise {A} e.

#[export] Instance result_ret : MRet result := fun A a => Ok a.
#[export] Instance result_bind : MBind result := fun A B f m =>
  match m with
  | Ok a => f a
  | Raise e => Raise e
  end.
#[export] Instance result_fmap : FMap result := fun A B f m =>
  match m with
  | Ok a => Ok (f a)
  | Raise e => Raise e
  end.

(** ** Strings *)

Module Str.

(** [s.startswith(p)] *)
Fixpoint startswith (p s : string) : bool :=
  match p, s with
  | EmptyString, _ => true
  | String a p', String b s' => if Ascii.eqb a b then startswith p' s' else false
  | String _ _, EmptyString => false
  end.

(** [s.replace(old, "")] for a non-empty [old]: the occurrences of
    [old] are removed from left to right, without overlap.  [skip]
    counts the characters of the current occurrence still to drop. *)
Fixpoint remove_from (old : string) (skip : nat) (s : string) : string :=
  match s with
  | EmptyString => EmptyString
  | String c s' =>
      match skip with
      | S k => remove_from old k s'
      | O =>
          if startswith old s
          then remove_from old (String.length old - 1) s'
          else String c (remove_from old O s')
      end
  end.

Definition remove (old s : string) : string :=
  match old with
  | EmptyString => s
  | _ => remove_from old O s
  end.

(** [s.split(sep)] for a one-character separator. *)
Fixpoint split (sep : ascii) (s : string) : list string :=
  match s with
  | EmptyString => [EmptyString]
  | String c s' =>
      if Ascii.eqb c sep then EmptyString :: split sep s'
      else match split sep s' with
           | [] => [String c EmptyString]
           | w :: ws => String c w :: ws
           end
  end.

(** [s.lstrip(c)] for a one-character set. *)
Fixpoint lstrip (c : ascii) (s : string) : string :=
  match s with
  | String a s' => if Ascii.eqb a c then lstrip c s' else s
  | EmptyString => EmptyString
  end.

(** [s[:n]] and [s[n:]] *)
Fixpoint take (n : nat) (s : string) : string :=
  match n, s with
  | S k, String c s' => String c (take k s')
  | _, _ => EmptyString
  end.

Fixpoint drop (n : nat) (s : string) : string :=
  match n, s with
  | S k, String _ s' => drop k s'
  | _, _ => s
  end.

Fixpoint rev_onto (s acc : string) : string :=
  match s with
  | EmptyString => acc
  | String c s' => rev_onto s' (String c acc)
  end.
Definition rev (s : string) : string := rev_onto s EmptyString.

Fixpoint forallb (p : ascii -> bool) (s : string) : bool :=
  match s with
  | EmptyString => true
  | String c s' => p c && forallb p s'
  end.

(** [char * 2 for char in s], joined. *)
Fixpoint double (s : string) : string :=
  match s with
  | EmptyString => EmptyString
  | String c s' => String c (String c (double s'))
  end.

Definition in_range (lo hi c : ascii) : bool :=
  (nat_of_ascii lo <=? nat_of_ascii c)%nat && (nat_of_ascii c <=? nat_of_ascii hi)%nat.

Definition is_digit (c : ascii) : bool := in_range "0" "9" c.
Definition is_lower (c : ascii) : bool := in_range "a" "z" c.
Definition is_upper (c : ascii) : bool := in_range "A" "Z" c.

(** ASCII lower-casing, as far as the tokens [inf] and [nan] need it. *)
Definition lower (c : ascii) : ascii :=
  if is_upper c then ascii_of_nat (nat_of_ascii c + 32) else c.
Fixpoint lowercase (s : string) : string :=
  match s with
  | EmptyString => EmptyString
  | String c s' => String (lower c) (lowercase s')
  end.

(** The white space [float] and [int] skip at both ends of a text: the
    characters of C's [isspace]. *)
Definition is_space (c : ascii) : bool :=
  let n := nat_of_ascii c in
  ((9 <=? n) && (n <=? 13) || (n =? 32))%nat.

Fixpoint lstrip_space (s : string) : string :=
  match s with
  | String a s' => if is_space a then lstrip_space s' else s
  | EmptyString => EmptyString
  end.
Definition strip_space (s : string) : string :=
  rev (lstrip_space (rev (lstrip_space s))).

End Str.

(** ** Text that is not ASCII

    [float] and [int] read ASCII text.  A text with a character outside
    ASCII is rewritten first: from U+007F on, a white-space character
    becomes a space and a decimal digit of any script its ASCII digit;
    at any other character the text ends with a question mark, which no
    number contains. *)

Module Unicode.

(** What stands for bytes that are no UTF-8 sequence; the text of a
    [str] has none. *)
Definition replacement : N := 0xFFFD.

Definition scalar (acc least : N) : N :=
  if ((least <=? acc) && (acc <=? 0x10FFFF)
      && negb ((0xD800 <=? acc) && (acc <=? 0xDFFF)))%N
  then acc else replacement.

(** The code points of a text.  [need] bytes of the current sequence are
    awaited, [acc] holds its bits, and [least] is the least code point a
    sequence of its length encodes. *)
Fixpoint decode (need : nat) (acc least : N) (s : string) : list N :=
  match s with
  | EmptyString =>
      match need with
      | O => []
      | S _ => [replacement]
      end
  | String c s' =>
      let b := N_of_ascii c in
      let fresh :=
        (if b <? 0x80 then b :: decode O 0 0 s'
         else if (0xC0 <=? b) && (b <? 0xE0) then decode 1 (b - 0xC0) 0x80 s'
         else if (0xE0 <=? b) && (b <? 0xF0) then decode 2 (b - 0xE0) 0x800 s'
         else if (0xF0 <=? b) && (b <? 0xF8) then decode 3 (b - 0xF0) 0x10000 s'
         else replacement :: decode O 0 0 s')%N in
      match need with
      | O => fresh
      | S k =>
          if ((0x80 <=? b) && (b <? 0xC0))%N then
            let acc := (64 * acc + (b - 0x80))%N in
            match k with
            | O => scalar acc least :: decode O 0 0 s'
            | S _ => decode k acc least s'
            end
          else replacement :: fresh
      end
  end.

Definition code_points (s : string) : list N := decode O 0 0 s.

(** The white space of Unicode from U+007F on. *)
Definition is_space (ch : N) : bool :=
  ((ch =? 0x85) || (ch =? 0xA0) || (ch =? 0x1680)
   || (0x2000 <=? ch) && (ch <=? 0x200A)
   || (ch =? 0x2028) || (ch =? 0x2029) || (ch =? 0x202F) || (ch =? 0x205F)
   || (ch =? 0x3000))%N.

(** The code points of the digit zero of every script with decimal
    digits (Unicode 13.0, the database of CPython 3.9); the nine code
    points after each are its digits one to nine. *)
Definition zeros : list N :=
  [ 0x0030; 0x0660; 0x06F0; 0x07C0; 0x0966; 0x09E6; 0x0A66; 0x0AE6; 0x0B66;
    0x0BE6; 0x0C66; 0x0CE6; 0x0D66; 0x0DE6; 0x0E50; 0x0ED0; 0x0F20; 0x1040;
    0x1090; 0x17E0; 0x1810; 0x1946; 0x19D0; 0x1A80; 0x1A90; 0x1B50; 0x1BB0;
    0x1C40; 0x1C50; 0xA620; 0xA8D0; 0xA900; 0xA9D0; 0xA9F0; 0xAA50; 0xABF0;
    0xFF10; 0x104A0; 0x10D30; 0x11066; 0x110F0; 0x11136; 0x111D0; 0x112F0;
    0x11450; 0x114D0; 0x11650; 0x116C0; 0x11730; 0x118E0; 0x11950; 0x11C50;
    0x11D50; 0x11DA0; 0x16A60; 0x16B50; 0x1D7CE; 0x1D7D8; 0x1D7E2; 0x1D7EC;
    0x1D7F6; 0x1E140; 0x1E2F0; 0x1E950; 0x1FBF0 ]%N.

Fixpoint decimal_in (starts : list N) (ch : N) : option N :=
  match starts with
  | [] => None
  | z :: starts' =>
      if ((z <=? ch) && (ch <? z + 10))%N then Some (ch - z)%N
      else decimal_in starts' ch
  end.

(** The value of a decimal digit. *)
Definition decimal (ch : N) : option N := decimal_in zeros ch.

Fixpoint transform (text : list N) : string :=
  match text with
  | [] => EmptyString
  | ch :: text' =>
      if (ch <? 127)%N then String (ascii_of_N ch) (transform text')
      else if is_space ch then String " " (transform text')
      else
        match decimal ch with
        | Some d => String (ascii_of_N (48 + d)) (transform text')
        | None => "?"
        end
  end.

Definition is_ascii (s : string) : bool :=
  Str.forallb (fun c => (N_of_ascii c <? 0x80)%N) s.

(** A text that is all ASCII is left as it is. *)
Definition to_ascii (s : string) : string :=
  if is_ascii s then s else transform (code_points s).

End Unicode.


(** ** Python's [float]

    [float(s)] first reads the text as a literal; how a literal becomes
    a number is left to the arithmetic. *)

Inductive literal : Type :=
  | LitNan
  | LitInf (neg : bool)
  | LitDec (neg : bool) (digits : Z) (exp10 : Z).

Module Lit.

Definition digit_val (c : ascii) : Z := Z.of_nat (nat_of_ascii c) - 48.

(** A digit part [digit (["_"] digit)*], read onto the value [acc];
    [n] counts the digits read. *)
Fixpoint digits_from (acc : Z) (n : nat) (s : string) : Z * nat * string :=
  match s with
  | String c s' =>
      if Str.is_digit c then digits_from (10 * acc + digit_val c) (S n) s'
      else if Ascii.eqb c "_" then
        match n, s' with
        | S _, String d _ => if Str.is_digit d then digits_from acc n s' else (acc, n, s)
        | _, _ => (acc, n, s)
        end
      else (acc, n, s)
  | EmptyString => (acc, n, s)
  end.

Definition sign_of (s : string) : bool * string :=
  match s with
  | String "-" s' => (true, s')
  | String "+" s' => (false, s')
  | _ => (false, s)
  end.

(** [[eE] [+-]? digitpart], or nothing. *)
Definition exponent (s : string) : option Z :=
  match s with
  | EmptyString => Some 0
  | String c s' =>
      if Ascii.eqb (Str.lower c) "e" then
        let '(neg, s'') := sign_of s' in
        match digits_from 0 O s'' with
        | (e, S _, EmptyString) => Some (if neg : bool then - e else e)
        | _ => None
        end
      else None
  end.

Definition number (neg : bool) (s : string) : option literal :=
  let '(i, ni, r1) := digits_from 0 O s in
  let '(m, nf, r2) :=
    match r1 with
    | String "." r => digits_from i O r
    | _ => (i, O, r1)
    end in
  match (ni + nf)%nat with
  | O => None
  | S _ =>
      match exponent r2 with
      | Some e => Some (LitDec neg m (e - Z.of_nat nf))
      | None => None
      end
  end.

(** The text [float] accepts: surrounding white space, a sign, then
    [inf], [infinity] or [nan] in any case, or a decimal number. *)
Definition parse (s : string) : option literal :=
  let '(neg, body) := sign_of (Str.strip_space (Unicode.to_ascii s)) in
  let low := Str.lowercase body in
  if String.eqb low "nan" then Some LitNan
  else if String.eqb low "inf" || String.eqb low "infinity" then Some (LitInf neg)
  else number neg body.

End Lit.

(** What [int(x)] finds in [x]. *)
Inductive truncation : Type :=
  | Int (z : Z)
  | NotANumber
  | Infinite.

(** The operations of [float] the program uses.  [fdiv] and [fmod] are
    the quotient and the remainder for a divisor that is not zero;
    [truediv] and [pymod] below add Python's check. *)
Class PyFloat (T : Type) : Type := {
  of_int : Z -> T;
  fadd : T -> T -> T;
  fsub : T -> T -> T;
  fmul : T -> T -> T;
  fdiv : T -> T -> T;
  fmod : T -> T -> T;
  feqb : T -> T -> bool;
  fltb : T -> T -> bool;
  fleb : T -> T -> bool;
  (** [x] without its fractional part *)
  ftrunc : T -> truncation;
  (** the value of the decimal [digits * 10 ^ exp10], negated when [neg] *)
  of_decimal : bool -> Z -> Z -> T;
  (** NaN and the infinity of the given sign, where the arithmetic has them *)
  of_nan : option T;
  of_inf : bool -> option T
}.

Declare Scope py_scope.
Delimit Scope py_scope with py.
Infix "+" := fadd : py_scope.
Infix "-" := fsub : py_scope.
Infix "*" := fmul : py_scope.
Infix "/" := fdiv : py_scope.
Infix "%%" := fmod (at level 40, left associativity) : py_scope.
Infix "==?" := feqb (at level 70) : py_scope.
Infix "<?" := fltb : py_scope.
Infix "<=?" := fleb : py_scope.
Notation "x >? y" := (fltb y x) : py_scope.

(** *** Exact arithmetic *)

Module Exact.




End Exact.


(** *** IEEE binary64 *)

Module Binary64.

Definition of_Z (z : Z) : float := SF2Prim (binary_normalize prec emax z 0 false).

(** [n / d] for [0 < n] and [0 < d], rounded to nearest, ties to even:
    the quotient is taken with more than 64 bits and a sticky bit. *)
Definition round_ratio (n d : Z) : float :=
  let s := Z.max 0 (Z.log2 d - Z.log2 n + 66) in
  let q := (n * 2 ^ s) / d in
  let sticky := if (n * 2 ^ s) mod d =? 0 then 0 else 1 in
  SF2Prim (binary_normalize prec emax (2 * q + sticky) (- s - 1) false).

Definition of_decimal (neg : bool) (m e : Z) : float :=
  let x :=
    if m =? 0 then PrimFloat.zero
    else if 0 <=? e then round_ratio (m * 10 ^ e) 1
    else round_ratio m (10 ^ (- e)) in
  if neg then PrimFloat.opp x else x.

(** C's [fmod]: the exact remainder, with the sign of [x]. *)
Definition c_fmod (x y : float) : float :=
  match Prim2SF x, Prim2SF y with
  | S754_nan, _ | _, S754_nan => PrimFloat.nan
  | S754_infinity _, _ => PrimFloat.nan
  | _, S754_zero _ => PrimFloat.nan
  | _, S754_infinity _ => x
  | S754_zero _, _ => x
  | S754_finite sx mx ex, S754_finite _ my ey =>
      let e := Z.min ex ey in
      let r := (Zpos mx * 2 ^ (ex - e)) mod (Zpos my * 2 ^ (ey - e)) in
      let a := Z.ldexp (of_Z r) e in
      if sx then PrimFloat.opp a else a
  end.

(** [float_rem] of CPython: the remainder takes the sign of the
    divisor. *)
Definition py_fmod (x y : float) : float :=
  let m := c_fmod x y in
  if PrimFloat.eqb m PrimFloat.zero then
    (if PrimFloat.ltb y PrimFloat.zero then PrimFloat.neg_zero else PrimFloat.zero)
  else if Bool.eqb (PrimFloat.ltb y PrimFloat.zero) (PrimFloat.ltb m PrimFloat.zero)
  then m else PrimFloat.add m y.

(** Truncation toward zero. *)
Definition trunc (x : float) : truncation :=
  match Prim2SF x with
  | S754_nan => NotANumber
  | S754_infinity _ => Infinite
  | S754_zero _ => Int 0
  | S754_finite s m e =>
      let v := if 0 <=? e then Zpos m * 2 ^ e else Zpos m / 2 ^ (- e) in
      Int (if s then - v else v)
  end.

End Binary64.

#[export] Instance binary64_float : PyFloat float := {|
  of_int := Binary64.of_Z;
  fadd := PrimFloat.add;
  fsub := PrimFloat.sub;
  fmul := PrimFloat.mul;
  fdiv := PrimFloat.div;
  fmod := Binary64.py_fmod;
  feqb := PrimFloat.eqb;
  fltb := PrimFloat.ltb;
  fleb := PrimFloat.leb;
  ftrunc := Binary64.trunc;
  of_decimal := Binary64.of_decimal;
  of_nan := Some PrimFloat.nan;
  of_inf := fun neg => Some (if neg then PrimFloat.neg_infinity else PrimFloat.infinity)
|}.

(** ** Built-in operations on numbers *)

Section Builtins.
Context {T : Type} {arith : PyFloat T}.
Local Open Scope py_scope.

(** [float(s)]; [None] is [ValueError]. *)
Definition float_of_string (s : string) : option T :=
  match Lit.parse s with
  | Some LitNan => of_nan
  | Some (LitInf neg) => of_inf neg
  | Some (LitDec neg m e) => Some (of_decimal neg m e)
  | None => None
  end.

(** [int(x)]: [ValueError] on NaN, [OverflowError] on an infinity. *)
Definition int (x : T) : result Z :=
  match ftrunc x with
  | Int z => Ok z
  | NotANumber => Raise ValueError
  | Infinite => Raise OverflowError
  end.

(** [x / y] and [x % y] raise on a zero divisor. *)
Definition truediv (x y : T) : result T :=
  if y ==? of_int 0 then Raise ZeroDivisionError else Ok (x / y).

Definition pymod (x y : T) : result T :=
  if y ==? of_int 0 then Raise ZeroDivisionError else Ok (x %% y).

(** [max(a, b)] keeps [a] unless [b > a]; [min(a, b)] keeps [a] unless
    [b < a]. *)
Definition max2 (a b : T) : T := if b >? a then b else a.
Definition min2 (a b : T) : T := if b <? a then b else a.
Definition max3 (a b c : T) : T := max2 (max2 a b) c.
Definition min3 (a b c : T) : T := min2 (min2 a b) c.

End Builtins.

(** ** The module [colorsys] of the Python library

    The functions of CPython's [Lib/colorsys.py] (3.5 to 3.10) that the
    converters call, and [rgb_to_hsv], the standard conversion the
    ["hsv"] entries are compared with. *)

Module colorsys.
Section Colorsys.
Context {T : Type} {arith : PyFloat T}.
Local Open Scope py_scope.

Definition half : T := of_decimal false 5 (-1).
Definition ONE_THIRD : T := of_int 1 / of_int 3.
Definition ONE_SIXTH : T := of_int 1 / of_int 6.
Definition TWO_THIRD : T := of_int 2 / of_int 3.

Definition rgb_to_yiq (r g b : T) : T * T * T :=
  let y := of_decimal false 30 (-2) * r + of_decimal false 59 (-2) * g
           + of_decimal false 11 (-2) * b in
  let i := of_decimal false 74 (-2) * (r - y) - of_decimal false 27 (-2) * (b - y) in
  let q := of_decimal false 48 (-2) * (r - y) + of_decimal false 41 (-2) * (b - y) in
  (y, i, q).

Definition clamp01 (x : T) : T :=
  let x := if x <? of_int 0 then of_int 0 else x in
  if x >? of_int 1 then of_int 1 else x.

Definition yiq_to_rgb (y i q : T) : T * T * T :=
  let r := y + of_decimal false 9468822170900693 (-16) * i
             + of_decimal false 6235565819861433 (-16) * q in
  let g := y - of_decimal false 27478764629897834 (-17) * i
             - of_decimal false 6356910791873801 (-16) * q in
  let b := y - of_decimal false 11085450346420322 (-16) * i
             + of_decimal false 17090069284064666 (-16) * q in
  (clamp01 r, clamp01 g, clamp01 b).

Definition rgb_to_hls (r g b : T) : result (T * T * T) :=
  let maxc := max3 r g b in
  let minc := min3 r g b in
  let l := (minc + maxc) / of_int 2 in
  if minc ==? maxc then Ok (of_int 0, l, of_int 0)
  else
    s ← (if l <=? half
         then truediv (maxc - minc) (maxc + minc)
         else truediv (maxc - minc) (of_int 2 - maxc - minc));
    rc ← truediv (maxc - r) (maxc - minc);
    gc ← truediv (maxc - g) (maxc - minc);
    bc ← truediv (maxc - b) (maxc - minc);
    let h := if r ==? maxc then bc - gc
             else if g ==? maxc then of_int 2 + rc - bc
             else of_int 4 + gc - rc in
    let h := (h / of_int 6) %% of_int 1 in
    Ok (h, l, s).

Definition _v (m1 m2 hue : T) : T :=
  let hue := hue %% of_int 1 in
  if hue <? ONE_SIXTH then m1 + (m2 - m1) * hue * of_int 6
  else if hue <? half then m2
  else if hue <? TWO_THIRD then m1 + (m2 - m1) * (TWO_THIRD - hue) * of_int 6
  else m1.

Definition hls_to_rgb (h l s : T) : T * T * T :=
  if s ==? of_int 0 then (l, l, l)
  else
    let m2 := if l <=? half then l * (of_int 1 + s) else l + s - (l * s) in
    let m1 := of_int 2 * l - m2 in
    (_v m1 m2 (h + ONE_THIRD), _v m1 m2 h, _v m1 m2 (h - ONE_THIRD)).

Definition rgb_to_hsv (r g b : T) : result (T * T * T) :=
  let maxc := max3 r g b in
  let minc := min3 r g b in
  let v := maxc in
  if minc ==? maxc then Ok (of_int 0, of_int 0, v)
  else
    s ← truediv (maxc - minc) maxc;
    rc ← truediv (maxc - r) (maxc - minc);
    gc ← truediv (maxc - g) (maxc - minc);
    bc ← truediv (maxc - b) (maxc - minc);
    let h := if r ==? maxc then bc - gc
             else if g ==? maxc then of_int 2 + rc - bc
             else of_int 4 + gc - rc in
    let h := (h / of_int 6) %% of_int 1 in
    Ok (h, s, v).

Definition hsv_to_rgb (h s v : T) : result (T * T * T) :=
  if s ==? of_int 0 then Ok (v, v, v)
  else
    i ← int (h * of_int 6);
    let f := (h * of_int 6) - of_int i in
    let p := v * (of_int 1 - s) in
    let q := v * (of_int 1 - s * f) in
    let t := v * (of_int 1 - s * (of_int 1 - f)) in
    Ok (match (i mod 6)%Z with
        | 0%Z => (v, t, p)
        | 1%Z => (q, v, p)
        | 2%Z => (p, v, t)
        | 3%Z => (p, q, v)
        | 4%Z => (t, p, v)
        | _ => (v, p, q)
        end).

End Colorsys.
End colorsys.

(** ** Integers as text *)

Module Hex.

Definition digit (n : Z) : ascii :=
  ascii_of_nat (Z.to_nat (if n <? 10 then 48 + n else 87 + n)).

(** The lowercase hexadecimal digits of [n], most significant first;
    [fuel] bounds their number. *)
Fixpoint digits (fuel : nat) (n : Z) (acc : string) : string :=
  match fuel with
  | O => acc
  | S k =>
      let acc := String (digit (n mod 16)) acc in
      if n / 16 =? 0 then acc else digits k (n / 16) acc
  end.

Fixpoint zeros (n : nat) : string :=
  match n with
  | O => EmptyString
  | S k => String "0" (zeros k)
  end.

(** [format(n, "02x")]: sign, then the digits padded with zeros to a
    total width of two. *)
Definition format_02x (n : Z) : string :=
  let body := digits (S (Z.to_nat (Z.log2 (Z.abs n)))) (Z.abs n) EmptyString in
  if n <? 0
  then String "-" (zeros (1 - String.length body) ++ body)
  else zeros (2 - String.length body) ++ body.

Definition digit_val (c : ascii) : option Z :=
  let n := Z.of_nat (nat_of_ascii c) in
  if Str.is_digit c then Some (n - 48)
  else if Str.in_range "a" "f" c then Some (n - 87)
  else if Str.in_range "A" "F" c then Some (n - 55)
  else None.

(** A digit part in base 16, with single underscores between digits. *)
Fixpoint digits_from (acc : Z) (n : nat) (s : string) : Z * nat * string :=
  match s with
  | String c s' =>
      match digit_val c with
      | Some d => digits_from (16 * acc + d) (S n) s'
      | None =>
          if Ascii.eqb c "_" then
            match n, s' with
            | S _, String d _ =>
                match digit_val d with
                | Some _ => digits_from acc n s'
                | None => (acc, n, s)
                end
            | _, _ => (acc, n, s)
            end
          else (acc, n, s)
      end
  | EmptyString => (acc, n, s)
  end.

(** [int(s, 16)]: white space, a sign, an optional [0x] and the
    digits; [None] is [ValueError]. *)
Definition parse (s : string) : option Z :=
  let '(neg, body) := Lit.sign_of (Str.strip_space (Unicode.to_ascii s)) in
  let body :=
    match body with
    | String "0" (String x r) =>
        if Ascii.eqb (Str.lower x) "x"
        then match r with String "_" r' => r' | _ => r end
        else body
    | _ => body
    end in
  match digits_from 0 O body with
  | (v, S _, EmptyString) => Some (if neg : bool then - v else v)
  | _ => None
  end.

End Hex.

(** ** The plugin *)

(** A color as the program passes it around: the 3-tuple of a numeric
    system, the 1-tuple [(hex,)] of [hexParser], or the [str] that
    [rgb_to_hex] returns. *)
Inductive pyval (T : Type) : Type :=
  | Tuple3 (a b c : T)
  | Tuple1 (hex : string)
  | Str_ (s : string).
Arguments Tuple3 {T} a b c.
Arguments Tuple1 {T} hex.
Arguments Str_ {T} s.

(** [ClipAction(text, clipboardText)] *)
Record ClipAction : Type := {
  action_text : string;
  clipboardText : string
}.

Record Item : Type := {
  id : string;
  completion : string;
  text : string;
  subtext : string;
  actions : list ClipAction;
  icon : string
}.

(** The host's query: [string] is the text after the trigger,
    [rawString] the whole input line. *)
Record Query : Type := {
  string_ : string;
  rawString : string
}.

(** What the program reaches outside itself: the temporary directory
    (path to content), the module global [color_file_location] and the
    messages written with [critical]. *)
Record world : Type := {
  files : gmap string string;
  color_file_location : option string;
  critical_log : list string
}.

(** What the program takes from its surroundings: the rendering of
    [format(x, "g")], the text [traceback.format_exception] gives for an
    exception, and the name [tempfile.NamedTemporaryFile] picks in a
    directory. *)
Class Host (T : Type) : Type := {
  format_g : T -> string;
  format_exception : exn -> string;
  mkstemp : gmap string string -> string
}.

(** [NamedTemporaryFile] creates a file that did not exist, under a
    name that is not empty. *)
Definition fresh_names {T : Type} (host : Host T) : Prop :=
  forall fs : gmap string string, fs !! mkstemp fs = None /\ mkstemp fs <> "".

(** [d[k]] and [k in d] for a dict kept in insertion order. *)
Fixpoint dict_get {V : Type} (k : string) (d : list (string * V)) : option V :=
  match d with
  | [] => None
  | (k', v) :: d' => if String.eqb k k' then Some v else dict_get k d'
  end.

Definition dict_getitem {V : Type} (d : list (string * V)) (k : string) : result V :=
  match dict_get k d with
  | Some v => Ok v
  | None => Raise KeyError
  end.

Definition dict_contains {V : Type} (k : string) (d : list (string * V)) : bool :=
  match dict_get k d with
  | Some _ => true
  | None => false
  end.

Definition __prettyname__ : string := "Color Converter".

Definition is_alnum (c : ascii) : bool :=
  Str.is_lower c || Str.is_upper c || Str.is_digit c.

Definition newline : ascii := ascii_of_nat 10.

(** [hex_pattern.match(s)] for the pattern
    [^([a-zA-Z0-9]{3}|[a-zA-Z0-9]{6})$]: three or six characters of the
    class, up to the end or to a final newline. *)
Definition hex_pattern (s : string) : bool :=
  let body :=
    match Str.rev s with
    | String c r => if Ascii.eqb c newline then Str.rev r else s
    | EmptyString => s
    end in
  Str.forallb is_alnum body
  && ((String.length body =? 3)%nat || (String.length body =? 6)%nat).

Definition quote : string := String (ascii_of_nat 34) EmptyString.

(** The string [svg] with its one format field filled. *)
Definition svg (fill : string) : string :=
  "<svg viewBox=" ++ quote ++ "0 0 1 1" ++ quote ++ "><rect width=" ++ quote ++ "1"
  ++ quote ++ " height=" ++ quote ++ "1" ++ quote ++ " fill=" ++ quote ++ fill
  ++ quote ++ " /></svg>".

Definition degree_sign : string :=
  String (ascii_of_nat 194) (String (ascii_of_nat 176) EmptyString).

Section ColorConverter.
Context {T : Type} {arith : PyFloat T}.
Local Open Scope py_scope.

(** The keys of [converters_from], in order, then the decorations. *)
Definition remove_strings : list string :=
  ["rgb"; "hex"; "yiq"; "hls"; "hsl"; "hsv"] ++ ["("; ")"; " "; "%"; degree_sign].

(** *** Parsers

    A parser returns a tuple or [False]; [False] is [None] here. *)

(** [tuple(map(float, color))] under [except Exception]. *)
Fixpoint map_float (l : list string) : option (list T) :=
  match l with
  | [] => Some []
  | s :: l' =>
      match float_of_string s with
      | Some x =>
          match map_float l' with
          | Some xs => Some (x :: xs)
          | None => None
          end
      | None => None
      end
  end.

Definition baseParser (string : string) : option (T * T * T) :=
  let string := fold_left (fun s remove => Str.remove remove s) remove_strings string in
  let color := Str.split "," string in
  if negb (length color =? 3)%nat then None
  else
    match map_float color with
    | Some [a; b; c] => Some (a, b, c)
    | _ => None
    end.

Definition minMaxParser (string : string) (minimum maximum : Z) : option (pyval T) :=
  match baseParser string with
  | None => None
  | Some (a, b, c) =>
      let clamp x := min2 (of_int maximum) (max2 (of_int minimum) x) in
      Some (Tuple3 (clamp a) (clamp b) (clamp c))
  end.

Definition getMinMaxParser (minimum maximum : Z) : string -> option (pyval T) :=
  fun color => minMaxParser color minimum maximum.

Definition hexParser (string : string) : option (pyval T) :=
  let string := Str.lstrip " " string in
  if (String.length string =? 0)%nat then None
  else
    let hex := Str.lstrip "#" string in
    if negb ((String.length hex =? 3)%nat || (String.length hex =? 6)%nat) then None
    else if hex_pattern hex then Some (Tuple1 hex)
    else None.

(** [color[0]] on [False] raises [TypeError]. *)
Definition HLSHSVParser (string : string) : result (option (pyval T)) :=
  match baseParser string with
  | None => Raise TypeError
  | Some (c0, c1, c2) =>
      Ok (Some (Tuple3 (c0 %% of_int 360)
                       (min2 (of_int 100) (max2 (of_int 0) c1))
                       (min2 (of_int 100) (max2 (of_int 0) c2))))
  end.

Definition parsers : list (string * (string -> result (option (pyval T)))) :=
  [ ("rgb", fun s => Ok (minMaxParser s 0 255));
    ("hex", fun s => Ok (hexParser s));
    ("yiq", fun s => Ok (getMinMaxParser (-1) 1 s));
    ("hls", HLSHSVParser);
    ("hsl", HLSHSVParser);
    ("hsv", HLSHSVParser) ].

(** *** Converters *)

Definition rgb_to_hex (r g b : T) : result string :=
  let byte x := int (min2 (of_int 255) (max2 (of_int 0) (x * of_int 255))) in
  r' ← byte r;
  g' ← byte g;
  b' ← byte b;
  Ok ("#" ++ Hex.format_02x r' ++ Hex.format_02x g' ++ Hex.format_02x b').

(** [int(hex[i:i+2], 16) / 255]; the tokens of [hexParser] are ASCII, one
    byte a character. *)
Definition hex_channel (hex : string) (i : nat) : result T :=
  match Hex.parse (Str.take 2 (Str.drop i hex)) with
  | Some n => Ok (of_int n / of_int 255)
  | None => Raise ValueError
  end.

Definition hex_to_rgb (hex : string) : result (T * T * T) :=
  let hex := Str.lstrip "#" hex in
  let hex := if (String.length hex =? 3)%nat then Str.double hex else hex in
  r ← hex_channel hex 0;
  g ← hex_channel hex 2;
  b ← hex_channel hex 4;
  Ok (r, g, b).

Definition toggleHSLHLS (h s_l_1 s_l_2 : T) : T * T * T := (h, s_l_2, s_l_1).

Definition transformHSLHSV (h s_l_v_1 s_l_v_2 : T) : T * T * T :=
  (h * of_int 360, s_l_v_1 * of_int 100, s_l_v_2 * of_int 100).

(** A call that unpacks [color] into the arguments of a function of
    three parameters, and of a function of one: any other number of
    arguments is a [TypeError]. *)
Definition call3 {A : Type} (f : T -> T -> T -> result A) (color : pyval T) : result A :=
  match color with
  | Tuple3 a b c => f a b c
  | _ => Raise TypeError
  end.

Definition call1 {A : Type} (f : string -> result A) (color : pyval T) : result A :=
  match color with
  | Tuple1 s => f s
  | Str_ (String c EmptyString) => f (String c EmptyString)
  | _ => Raise TypeError
  end.

Definition tuple3 (t : T * T * T) : pyval T :=
  let '(a, b, c) := t in Tuple3 a b c.

Definition converters_from : list (string * (pyval T -> result (T * T * T))) :=
  [ ("rgb", call3 (fun r g b => Ok (r / of_int 255, g / of_int 255, b / of_int 255)));
    ("hex", call1 hex_to_rgb);
    ("yiq", call3 (fun y i q => Ok (colorsys.yiq_to_rgb y i q)));
    ("hls", call3 (fun h l s =>
       Ok (colorsys.hls_to_rgb (h %% of_int 360 / of_int 360) (l / of_int 100) (s / of_int 100))));
    ("hsl", call3 (fun h s l =>
       Ok (colorsys.hls_to_rgb (h %% of_int 360 / of_int 360) (l / of_int 100) (s / of_int 100))));
    ("hsv", call3 (fun h s v =>
       colorsys.hsv_to_rgb (h %% of_int 360 / of_int 360) (v / of_int 100) (s / of_int 100))) ].

Definition converters_to : list (string * (T -> T -> T -> result (pyval T))) :=
  [ ("rgb", fun r g b => Ok (Tuple3 (r * of_int 255) (g * of_int 255) (b * of_int 255)));
    ("hex", fun r g b => Str_ <$> rgb_to_hex r g b);
    ("yiq", fun r g b => Ok (tuple3 (colorsys.rgb_to_yiq r g b)));
    ("hls", fun r g b =>
       '(h, l, s) ← colorsys.rgb_to_hls r g b;
       Ok (tuple3 (transformHSLHSV h l s)));
    ("hsl", fun r g b =>
       '(h, l, s) ← colorsys.rgb_to_hls r g b;
       let '(h', l', s') := transformHSLHSV h l s in
       Ok (tuple3 (toggleHSLHLS h' l' s')));
    ("hsv", fun r g b =>
       '(h, l, s) ← colorsys.rgb_to_hls r g b;
       Ok (tuple3 (transformHSLHSV h l s))) ].

End ColorConverter.

(** *** Programs

    A statement of the program changes the [world] and returns or
    raises. *)

Definition prog (A : Type) : Type := world -> world * result A.

#[export] Instance prog_ret : MRet prog := fun A a w => (w, Ok a).
#[export] Instance prog_bind : MBind prog := fun A B f m w =>
  match m w with
  | (w', Ok a) => f a w'
  | (w', Raise e) => (w', Raise e)
  end.

(** A computation that does not touch the world. *)
Definition lift {A : Type} (r : result A) : prog A := fun w => (w, r).

(** [os.remove(path)] *)
Definition os_remove (path : string) : prog unit := fun w =>
  match files w !! path with
  | Some _ =>
      ({| files := delete path (files w);
          color_file_location := color_file_location w;
          critical_log := critical_log w |}, Ok tt)
  | None => (w, Raise FileNotFoundError)
  end.

Definition set_color_file_location (loc : option string) : prog unit := fun w =>
  ({| files := files w; color_file_location := loc; critical_log := critical_log w |},
   Ok tt).

(** [critical(message)] of the host. *)
Definition critical (message : string) : prog unit := fun w =>
  ({| files := files w;
      color_file_location := color_file_location w;
      critical_log := critical_log w ++ [message] |}, Ok tt).

Section Plugin.
Context {T : Type} {arith : PyFloat T} {host : Host T}.

(** [tempfile.NamedTemporaryFile(delete=False)]: a new, empty file. *)
Definition NamedTemporaryFile : prog string := fun w =>
  let name := mkstemp (files w) in
  ({| files := <[name := EmptyString]> (files w);
      color_file_location := color_file_location w;
      critical_log := critical_log w |}, Ok name).

(** [f.write(data)] on the file named [name]. *)
Definition write (name data : string) : prog unit := fun w =>
  ({| files := <[name := data]> (files w);
      color_file_location := color_file_location w;
      critical_log := critical_log w |}, Ok tt).

(** *** Color helpers *)

Definition colorString (system : string) (color : pyval T) : result string :=
  if String.eqb system "hex" then
    match color with
    | Tuple1 hex => Ok ("#" ++ hex)
    | Tuple3 _ _ _ => Raise TypeError
    | Str_ s => Ok s
    end
  else
    let percent :=
      if String.eqb system "hls" || String.eqb system "hsl" || String.eqb system "hsv"
      then "%" else "" in
    match color with
    | Tuple3 a b c =>
        Ok (system ++ "(" ++ format_g a ++ ", " ++ format_g b ++ percent ++ ", "
            ++ format_g c ++ percent ++ ")")
    | Tuple1 _ => Raise ValueError
    | Str_ EmptyString => Raise IndexError
    | Str_ _ => Raise ValueError
    end.

Definition colorSVG (r g b : T) : result string :=
  to_rgb ← dict_getitem converters_to "rgb";
  rgb ← to_rgb r g b;
  color ← colorString "rgb" rgb;
  Ok (svg color).

Definition colorFile (r g b : T) : prog string :=
  f ← NamedTemporaryFile;
  data ← lift (colorSVG r g b);
  _ ← write f data;
  mret f.

(** *** Item creation *)

Definition buildItem (completion source_system destination_system : string)
    (source_color destination_color : pyval T) (icon_file : string) : result Item :=
  item_text ← colorString destination_system destination_color;
  source ← colorString source_system source_color;
  Ok {| id := __prettyname__;
        completion := completion;
        text := item_text;
        subtext := "Converting " ++ source ++ " to " ++ destination_system;
        actions := [ {| action_text := "Copy to clipboard"; clipboardText := item_text |} ];
        icon := icon_file |}.

(** The loop of [run] over [converters_to.items()]. *)
Fixpoint convert_all (query : Query) (source_system : string) (color : pyval T)
    (rgb : T * T * T) (icon_file : string)
    (items : list (string * (T -> T -> T -> result (pyval T)))) : result (list Item) :=
  match items with
  | [] => Ok []
  | (destination_system, func) :: items' =>
      if String.eqb source_system destination_system
      then convert_all query source_system color rgb icon_file items'
      else
        let '(r, g, b) := rgb in
        destination_color ← func r g b;
        item ← buildItem (rawString query) source_system destination_system
                         color destination_color icon_file;
        results ← convert_all query source_system color rgb icon_file items';
        Ok (item :: results)
  end.

(** The block of [run] under [# Delete old temp file]; [None] and the
    empty string are false. *)
Definition delete_old_temp_file : prog unit := fun w =>
  match color_file_location w with
  | Some loc =>
      if String.eqb loc "" then (w, Ok tt)
      else (_ ← os_remove loc; set_color_file_location None) w
  | None => (w, Ok tt)
  end.

(** [run] returns the list of items, or [None] where the source has a
    bare [return]. *)
Definition run (query : Query) : prog (option (list Item)) :=
  let source_system := Str.take 3 (string_ query) in
  if negb (dict_contains source_system converters_from) then mret None
  else
    _ ← delete_old_temp_file;
    (* Check if valid color *)
    let string := Str.drop 3 (string_ query) in
    parser ← lift (dict_getitem parsers source_system);
    color ← lift (parser string);
    match color with
    | None => mret None
    | Some color =>
        from ← lift (dict_getitem converters_from source_system);
        rgb ← lift (from color);
        let '(r, g, b) := rgb in
        loc ← colorFile r g b;
        _ ← set_color_file_location (Some loc);
        (* Convert to all colors and add them. *)
        results ← lift (convert_all query source_system color rgb loc converters_to);
        mret (Some results)
    end.

(** [except Exception] catches the exceptions of class [Exception]:
    the message goes to [critical] and the function returns [None]. *)
Definition handleQuery (query : Query) : prog (option (list Item)) := fun w =>
  match run query w with
  | (w', Ok results) => (w', Ok results)
  | (w', Raise e) =>
      if is_Exception e
      then (_ ← critical (format_exception e); mret None) w'
      else (w', Raise e)
  end.

End Plugin.

(** ** Notions the statements use *)

Section Statements.
Context {T : Type} {arith : PyFloat T}.
Local Open Scope py_scope.

(** The call of the [converters_from] entry of [system] on a parsed
    color, and of the [converters_to] entry on an RGB triple. *)
Definition convert_from (system : string) (color : pyval T) : result (T * T * T) :=
  f ← dict_getitem converters_from system;
  f color.

Definition convert_to (system : string) (rgb : T * T * T) : result (pyval T) :=
  f ← dict_getitem converters_to system;
  let '(r, g, b) := rgb in f r g b.

(** From a system to RGB and back to the same system. *)
Definition roundtrip (system : string) (color : pyval T) : result (pyval T) :=
  rgb ← convert_from system color;
  convert_to system rgb.

(** The conversions the specification describes for ["hsv"], following
    its words: the standard formula on [(h/360, s/100, v/100)] with [s]
    the saturation and [v] the value, and the standard conversion back
    with the hue in degrees and the other two fields in percent. *)
Definition standard_hsv_to_rgb (h s v : T) : result (T * T * T) :=
  colorsys.hsv_to_rgb (h / of_int 360) (s / of_int 100) (v / of_int 100).

Definition standard_rgb_to_hsv (r g b : T) : result (pyval T) :=
  '(h, s, v) ← colorsys.rgb_to_hsv r g b;
  Ok (tuple3 (transformHSLHSV h s v)).

(** A 3-tuple with its second and third components exchanged. *)
Definition swap23 (color : pyval T) : pyval T :=
  match color with
  | Tuple3 a b c => Tuple3 a c b
  | _ => color
  end.

End Statements.

(** A world with the files [fs] in which no query has been recognized
    yet. *)
Definition initial_world (fs : gmap string string) : world :=
  {| files := fs; color_file_location := None; critical_log := [] |}.

(** The query the host builds when the plugin has no trigger. *)
Definition query_of (s : string) : Query := {| string_ := s; rawString := s |}.

(** The file that [color_file_location] records, if any, exists. *)
Definition recorded_file_exists (w : world) : Prop :=
  match color_file_location w with
  | Some loc => is_Some (files w !! loc)
  | None => True
  end.

(** The world holds the files [fs0] it started with and at most one
    file more: the one [color_file_location] records. *)
Definition single_slot (fs0 : gmap string string) (w : world) : Prop :=
  match color_file_location w with
  | Some loc =>
      loc <> "" /\ fs0 !! loc = None /\ is_Some (files w !! loc)
      /\ delete loc (files w) = fs0
  | None => files w = fs0
  end.

(** The transient files of a world: those that were not there at the
    start. *)
Definition transient_files (fs0 : gmap string string) (w : world) : gset string :=
  dom (files w) ∖ dom fs0.

(** What [color_file_location] refers to, as a set. *)
Definition recorded_files (w : world) : gset string :=
  match color_file_location w with
  | Some loc => {[ loc ]}
  | None => ∅
  end.

(** A computation raises nothing but exceptions of class [Exception]. *)
Definition raises_Exception {A : Type} (r : result A) : Prop :=
  forall e : exn, r = Raise e -> is_Exception e = true.

Definition prog_raises_Exception {A : Type} (m : prog A) : Prop :=
  forall (w w' : world) (e : exn), m w = (w', Raise e) -> is_Exception e = true.

Section Sequences.
Context {T : Type} {arith : PyFloat T} {host : Host T}.

(** One invocation of [run] after the other, whatever each returns or
    raises. *)
Fixpoint run_all (queries : list Query) (w : world) : world :=
  match queries with
  | [] => w
  | query :: queries' => run_all queries' (run query w).1
  end.

End Sequences.

(** ** A host to run examples with

    Numbers are shown by their integer part, an exception by the name
    of its class, and a new file gets a name longer than every name in
    the directory. *)

Module Example.

Definition class_name (e : exn) : string :=
  match e with
  | TypeError => "TypeError"
  | ValueError => "ValueError"
  | ZeroDivisionError => "ZeroDivisionError"
  | OverflowError => "OverflowError"
  | KeyError => "KeyError"
  | IndexError => "IndexError"
  | FileNotFoundError => "FileNotFoundError"
  | KeyboardInterrupt => "KeyboardInterrupt"
  | SystemExit => "SystemExit"
  end.

Definition integer_part {T : Type} {arith : PyFloat T} (x : T) : string :=
  match ftrunc x with
  | Int z => pretty z
  | NotANumber => "nan"
  | Infinite => "inf"
  end.

Fixpoint xs (n : nat) : string :=
  match n with
  | O => EmptyString
  | S k => String "x" (xs k)
  end.

Definition longer_name (fs : gmap string string) : string :=
  xs (S (max_list (String.length <$> (map_to_list fs).*1))).

Definition host {T : Type} {arith : PyFloat T} : Host T :=
  {| format_g := integer_part;
     format_exception := class_name;
     mkstemp := longer_name |}.

End Example.

(** ** Checks for the proofs by enumeration *)

Definition is_hexdigit (c : ascii) : bool :=
  match Hex.digit_val c with
  | Some _ => true
  | None => false
  end.


Definition all_ascii : list ascii := map ascii_of_nat (seq 0 256).

(** Two characters of the class of [hex_pattern] are read by
    [int(_, 16)] exactly when both are hexadecimal digits, as a byte
    whose text is the two characters in lower case. *)
Definition pair_ok (a b : ascii) : bool :=
  if is_alnum a && is_alnum b then
    match Hex.parse (String a (String b EmptyString)) with
    | Some n =>
        is_hexdigit a && is_hexdigit b && (0 <=? n) && (n <=? 255)
        && String.eqb (Hex.format_02x n)
             (String (Str.lower a) (String (Str.lower b) EmptyString))
    | None => negb (is_hexdigit a && is_hexdigit b)
    end
  else true.

Definition byte_binary64_ok (n : Z) : bool :=
  match int (min2 (of_int 255) (max2 (of_int 0)
               (fmul (fdiv (of_int n) (of_int 255)) (of_int 255 : float)))) with
  | Ok m => m =? n
  | Raise _ => false
  end.

Definition row_ok (a : ascii) : bool :=
  if is_alnum a then forallb (pair_ok a) all_ascii else true.

(** ** Notions of the further properties *)

Section Outcomes.
Context {T : Type} {arith : PyFloat T} {host : Host T}.

(** What [buildItem] puts in an item for a destination. *)
Definition item_for (query : Query) (source : string) (color : pyval T)
    (loc : string) (item : Item) (destination : string) (converted : result (pyval T))
    : Prop :=
  id item = "Color Converter"
  /\ completion item = rawString query
  /\ icon item = loc
  /\ actions item
     = [ {| action_text := "Copy to clipboard"; clipboardText := text item |} ]
  /\ (c ← converted; colorString destination c) = Ok (text item)
  /\ (s ← colorString source color; Ok ("Converting " ++ s ++ " to " ++ destination))
     = Ok (subtext item).

(** The world after the block that deletes the old file, when the file
    recorded exists. *)
Definition without_old_file (w : world) : world :=
  match color_file_location w with
  | Some loc =>
      if String.eqb loc "" then w
      else {| files := delete loc (files w);
              color_file_location := None;
              critical_log := critical_log w |}
  | None => w
  end.

End Outcomes.



(** The number of commas of a text. *)
Fixpoint commas (s : string) : nat :=
  match s with
  | EmptyString => O
  | String c s' => if Ascii.eqb c "," then S (commas s') else commas s'
  end.

(** The first [k] characters of [s], as far as there are any, are no
    commas. *)
Fixpoint comma_free (k : nat) (s : string) : bool :=
  match k, s with
  | S k', String c s' => negb (Ascii.eqb c ",") && comma_free k' s'
  | _, _ => true
  end.

(** * Properties *)

(** ** Field order of hls and hsl, and the hsv entries *)

Section ConverterTables.
Context {T : Type} {arith : PyFloat T}.
Local Open Scope py_scope.

(** [rgb_to_hls] returns as its second component the lightness: the
    mean of the largest and the smallest channel. *)
Lemma rgb_to_hls_lightness (r g b h l s : T) :
  colorsys.rgb_to_hls r g b = Ok (h, l, s) ->
  l = (min3 r g b + max3 r g b) / of_int 2.
Proof.
  unfold colorsys.rgb_to_hls. destruct (min3 r g b ==? max3 r g b).
  - intros [= _ <- _]. reflexivity.
  - destruct (if _ <=? colorsys.half then _ else _) as [s'|e];
      cbn [mbind result_bind]; [|discriminate].
    destruct (truediv (max3 r g b - r) _) as [rc|e];
      cbn [mbind result_bind]; [|discriminate].
    destruct (truediv (max3 r g b - g) _) as [gc|e];
      cbn [mbind result_bind]; [|discriminate].
    destruct (truediv (max3 r g b - b) _) as [bc|e];
      cbn [mbind result_bind]; [|discriminate].
    intros [= _ <- _]. reflexivity.
Qed.

(** The ["hls"] and ["hsv"] entries of [converters_to] are
    [transformHSLHSV] on what [rgb_to_hls] returns. *)
Lemma to_scaled_hls (system : string) (r g b : T) :
  system = "hls" \/ system = "hsv" ->
  convert_to system (r, g, b)
  = ('(h, l, s) ← colorsys.rgb_to_hls r g b;
     Ok (Tuple3 (h * of_int 360) (l * of_int 100) (s * of_int 100))).
Proof.
  intros [->| ->]; unfold convert_to; cbn;
    destruct (colorsys.rgb_to_hls r g b) as [[[h l] s]|e]; reflexivity.
Qed.

Lemma to_scaled_hls_lightness (system : string) (r g b h x y : T) :
  system = "hls" \/ system = "hsv" ->
  convert_to system (r, g, b) = Ok (Tuple3 h x y) ->
  x = (min3 r g b + max3 r g b) / of_int 2 * of_int 100.
Proof.
  intros Hsys. rewrite (to_scaled_hls system r g b Hsys).
  destruct (colorsys.rgb_to_hls r g b) as [[[h' l'] s']|e] eqn:E;
    cbn [mbind result_bind]; [|discriminate].
  intros [= _ <- _]. rewrite (rgb_to_hls_lightness _ _ _ _ _ _ E). reflexivity.
Qed.

(** C7.  The ["hls"] entries take and return (hue, lightness,
    saturation), the order of [colorsys], and the ["hsl"] entries (hue,
    saturation, lightness).  From ["hls"], [(h, l, s)] is
    [hls_to_rgb] on the fractions of [h], [l] and [s] in this order, so
    that a third field of zero gives the gray of the second field; from
    ["hsl"], [(h, s, l)] is the same call.  To ["hls"] is [rgb_to_hls]
    scaled, with the lightness (the mean of the largest and the smallest
    channel, in percent) second; to ["hsl"] is to ["hls"] with the
    second and third components exchanged. *)
Theorem hsl_is_hls_with_fields_exchanged :
  (forall h s l : T,
     convert_from "hsl" (Tuple3 h s l) = convert_from "hls" (Tuple3 h l s))
  /\ (forall r g b : T,
        convert_to "hsl" (r, g, b) = swap23 <$> convert_to "hls" (r, g, b))
  /\ (forall h l s : T,
        convert_from "hls" (Tuple3 h l s)
        = Ok (colorsys.hls_to_rgb (h %% of_int 360 / of_int 360)
                                  (l / of_int 100) (s / of_int 100)))
  /\ (forall h l s : T,
        (s / of_int 100 ==? of_int 0) = true ->
        convert_from "hls" (Tuple3 h l s)
        = Ok (l / of_int 100, l / of_int 100, l / of_int 100)
        /\ convert_from "hsl" (Tuple3 h s l)
           = Ok (l / of_int 100, l / of_int 100, l / of_int 100))
  /\ (forall r g b : T,
        convert_to "hls" (r, g, b)
        = ('(h, l, s) ← colorsys.rgb_to_hls r g b;
           Ok (Tuple3 (h * of_int 360) (l * of_int 100) (s * of_int 100)))
        /\ convert_to "hsl" (r, g, b)
           = ('(h, l, s) ← colorsys.rgb_to_hls r g b;
              Ok (Tuple3 (h * of_int 360) (s * of_int 100) (l * of_int 100))))
  /\ (forall r g b h x y : T,
        convert_to "hls" (r, g, b) = Ok (Tuple3 h x y) ->
        x = (min3 r g b + max3 r g b) / of_int 2 * of_int 100
        /\ convert_to "hsl" (r, g, b) = Ok (Tuple3 h y x)).
Proof.
  assert (Hto : forall r g b : T,
             convert_to "hsl" (r, g, b) = swap23 <$> convert_to "hls" (r, g, b)).
  { intros r g b. unfold convert_to. cbn.
    destruct (colorsys.rgb_to_hls r g b) as [[[h l] s]|e]; reflexivity. }
  split; [intros h s l; reflexivity|]. split; [exact Hto|].
  split; [intros h l s; reflexivity|]. split; [|split].
  - intros h l s Hs.
    change (convert_from "hsl" (Tuple3 h s l)) with (convert_from "hls" (Tuple3 h l s)).
    change (convert_from "hls" (Tuple3 h l s))
      with (Ok (colorsys.hls_to_rgb (h %% of_int 360 / of_int 360)
                                    (l / of_int 100) (s / of_int 100))).
    unfold colorsys.hls_to_rgb. rewrite Hs. split; reflexivity.
  - intros r g b. split; [apply to_scaled_hls; left; reflexivity|].
    unfold convert_to. cbn.
    destruct (colorsys.rgb_to_hls r g b) as [[[h l] s]|e]; reflexivity.
  - intros r g b h x y E. split.
    + apply (to_scaled_hls_lightness "hls" r g b h x y); [left; reflexivity|exact E].
    + rewrite Hto, E. reflexivity.
Qed.

End ConverterTables.

Section HsvEntries.
Context {T : Type} {arith : PyFloat T} {host : Host T}.
Local Open Scope py_scope.

(** C10.  The RGB-to-["hsv"] entry is the RGB-to-["hls"] entry, and both
    return the scaled HLS representation: what [rgb_to_hls] returns,
    the hue times 360 and the other two fields times 100, so that the
    second field of the ["hsv"] entry is the lightness (the mean of the
    largest and the smallest channel, in percent), not a saturation.
    The two items of a query show the same numbers after their tags. *)
Theorem hsv_entry_is_hls_entry : forall r g b : T,
  convert_to "hsv" (r, g, b) = convert_to "hls" (r, g, b)
  /\ convert_to "hsv" (r, g, b)
     = ('(h, l, s) ← colorsys.rgb_to_hls r g b;
        Ok (Tuple3 (h * of_int 360) (l * of_int 100) (s * of_int 100)))
  /\ (forall h x y : T,
        convert_to "hsv" (r, g, b) = Ok (Tuple3 h x y) ->
        x = (min3 r g b + max3 r g b) / of_int 2 * of_int 100)
  /\ Str.drop 3 <$> (v ← convert_to "hsv" (r, g, b); colorString "hsv" v)
     = Str.drop 3 <$> (v ← convert_to "hls" (r, g, b); colorString "hls" v).
Proof.
  intros r g b. split; [reflexivity|].
  split; [apply to_scaled_hls; right; reflexivity|]. split.
  - intros h x y. apply to_scaled_hls_lightness. right; reflexivity.
  - unfold convert_to. cbn.
    destruct (colorsys.rgb_to_hls r g b) as [[[h l] s]|e]; reflexivity.
Qed.

End HsvEntries.

(** C1.  On binary64 the ["hsv"] entries are not the standard
    conversions.  From ["hsv"], [(0, 100, 50)] (a red of full saturation
    and half value) becomes [(1, 0.5, 0.5)], where the standard formula
    gives [(0.5, 0, 0)]: the entry passes the value as saturation and
    the saturation as value.  To ["hsv"], pure red becomes
    [(0, 50, 100)], its HLS triple, where the standard conversion gives
    [(0, 100, 100)]. *)
Theorem hsv_entries_are_not_the_standard_conversions :
  convert_from "hsv" (Tuple3 0 100 50)%float = Ok (1, 0.5, 0.5)%float
  /\ standard_hsv_to_rgb 0%float 100%float 50%float = Ok (0.5, 0, 0)%float
  /\ convert_to "hsv" (1, 0, 0)%float = Ok (Tuple3 0 50 100)%float
  /\ standard_rgb_to_hsv 1%float 0%float 0%float = Ok (Tuple3 0 100 100)%float.
Proof. repeat split; vm_compute; reflexivity. Qed.

(** C2.  On binary64 the round trip under the ["hsv"] tag does not
    return the color: [(0, 100, 50)], a red of full saturation and half
    value, comes back as [(0, 75, 100)], and [(0, 50, 100)] as
    [(0, 25, 100)].  The RGB triple in between is the one of
    [hsv_to_rgb] with the saturation and the value exchanged, and the
    way back is [rgb_to_hls]. *)
Theorem hsv_round_trip_changes_the_color :
  roundtrip "hsv" (Tuple3 0 100 50)%float = Ok (Tuple3 0 75 100)%float
  /\ roundtrip "hsv" (Tuple3 0 50 100)%float = Ok (Tuple3 0 25 100)%float
  /\ convert_from "hsv" (Tuple3 0 100 50)%float
     = colorsys.hsv_to_rgb 0%float 0.5%float 1%float
  /\ convert_to "hsv" (1, 0.5, 0.5)%float
     = tuple3 <$> ('(h, l, s) ← colorsys.rgb_to_hls 1%float 0.5%float 0.5%float;
                   Ok (transformHSLHSV h l s)).
Proof. repeat split; vm_compute; reflexivity. Qed.

(** ** Queries that are not colors *)

Section NotMyQuery.
Context {T : Type} {arith : PyFloat T} {host : Host T}.

(** C3.  A payload with two fields under the tags ["hls"], ["hsl"] and
    ["hsv"] makes [run] raise [TypeError]: [HLSHSVParser] indexes the
    [False] that [baseParser] returned. *)
Theorem run_raises_on_malformed_hue_payload : forall fs : gmap string string,
  run (query_of "hls1,2") (initial_world fs) = (initial_world fs, Raise TypeError)
  /\ run (query_of "hsl1,2") (initial_world fs) = (initial_world fs, Raise TypeError)
  /\ run (query_of "hsv1,2") (initial_world fs) = (initial_world fs, Raise TypeError).
Proof. intros fs. repeat split; reflexivity. Qed.

End NotMyQuery.

(** C5.  [hexParser] accepts ["#ggg"], which is not a hexadecimal color,
    and [hex_to_rgb] raises [ValueError] on what it returned; ["#fff"]
    is accepted and expands to [(1.0, 1.0, 1.0)], ["#ff"] is
    rejected. *)
Theorem hexParser_accepts_letters_beyond_f :
  hexParser "#ggg" = Some (Tuple1 (T:=float) "ggg")
  /\ convert_from (T:=float) "hex" (Tuple1 "ggg") = Raise ValueError
  /\ hexParser "#fff" = Some (Tuple1 (T:=float) "fff")
  /\ convert_from "hex" (Tuple1 "fff") = Ok (1, 1, 1)%float
  /\ hexParser (T:=float) "#ff" = None.
Proof. repeat split; vm_compute; reflexivity. Qed.

(** ** The temporary file *)

Lemma delete_old_temp_file_ok (w : world) :
  recorded_file_exists w ->
  exists w1, delete_old_temp_file w = (w1, Ok tt)
             /\ critical_log w1 = critical_log w
             /\ (forall loc, color_file_location w1 = Some loc -> loc = "").
Proof.
  unfold recorded_file_exists, delete_old_temp_file.
  destruct (color_file_location w) as [loc|] eqn:Eloc.
  - intros [data Hdata]. destruct (String.eqb_spec loc "") as [->|Hne].
    + exists w. rewrite Eloc. repeat split. intros loc [= <-]. reflexivity.
    + unfold mbind, prog_bind, os_remove. rewrite Hdata. cbn.
      eexists. repeat split. cbn. discriminate.
  - intros _. exists w. rewrite Eloc. repeat split. discriminate.
Qed.

(** ** A recognized query *)

(** C4.  On binary64, for the query ["rgb100,60,20"] in a world whose
    recorded file exists, [run] returns five items, for hex, yiq, hls,
    hsl and hsv in this order and none for rgb, and the text of the hex
    item is ["#643c14"]. *)
Theorem run_rgb_100_60_20 (host : Host float) (raw : string) (w : world) :
  recorded_file_exists w ->
  exists (w' : world) (i_hex i_yiq i_hls i_hsl i_hsv : Item),
    run {| string_ := "rgb100,60,20"; rawString := raw |} w
    = (w', Ok (Some [i_hex; i_yiq; i_hls; i_hsl; i_hsv]))
    /\ text i_hex = "#643c14"
    /\ map subtext [i_hex; i_yiq; i_hls; i_hsl; i_hsv]
       = map (fun system =>
                "Converting "
                ++ ("rgb(" ++ format_g 100%float ++ ", " ++ format_g 60%float
                    ++ ", " ++ format_g 20%float ++ ")")
                ++ " to " ++ system)
             ["hex"; "yiq"; "hls"; "hsl"; "hsv"].
Proof.
  intros Hw. destruct (delete_old_temp_file_ok w Hw) as (w1 & Hdel & _ & _).
  unfold run. cbn [string_ Str.take].
  change (negb (dict_contains "rgb" converters_from)) with false. cbv iota.
  unfold mbind at 1. unfold prog_bind at 1. rewrite Hdel.
  eexists _, _, _, _, _, _. split; [|split].
  - vm_compute. reflexivity.
  - reflexivity.
  - vm_compute. reflexivity.
Qed.

(** ** Exceptions stop at [handleQuery] *)

Create HintDb raises discriminated.

Section RaisesException.
Context {T : Type} {arith : PyFloat T} {host : Host T}.

Lemma raises_Ok {A : Type} (a : A) : raises_Exception (Ok a).
Proof. intros e [=]. Qed.

Lemma raises_Raise {A : Type} (e : exn) :
  is_Exception e = true -> raises_Exception (Raise e : result A).
Proof. intros He e' [= <-]. exact He. Qed.

Lemma raises_bind {A B : Type} (m : result A) (f : A -> result B) :
  raises_Exception m -> (forall a, raises_Exception (f a)) ->
  raises_Exception (m ≫= f).
Proof.
  intros Hm Hf e. destruct m as [a|e']; cbn.
  - apply Hf.
  - intros [= <-]. apply Hm. reflexivity.
Qed.

Lemma raises_fmap {A B : Type} (m : result A) (f : A -> B) :
  raises_Exception m -> raises_Exception (f <$> m).
Proof.
  intros Hm e. destruct m as [a|e']; cbn; [intros [=]|].
  intros [= <-]. apply Hm. reflexivity.
Qed.

Lemma raises_int (x : T) : raises_Exception (int x).
Proof. unfold int. destruct (ftrunc x); intros e [= <-]; reflexivity. Qed.

Lemma raises_truediv (x y : T) : raises_Exception (truediv x y).
Proof. unfold truediv. destruct (feqb y _); intros e [= <-]; reflexivity. Qed.

Lemma raises_dict_getitem {V : Type} (d : list (string * V)) (k : string) :
  raises_Exception (dict_getitem d k).
Proof. unfold dict_getitem. destruct (dict_get k d); intros e [= <-]; reflexivity. Qed.

#[local] Hint Resolve raises_Ok raises_int raises_truediv raises_dict_getitem : raises.

(** The steps shared by the proofs below: split a bind, enter a
    branch, close a leaf. *)
Ltac raises_step :=
  first
    [ solve [auto 1 with raises nocore]
    | apply raises_Raise; reflexivity
    | apply raises_fmap
    | apply raises_bind; [|intros ?]
    | match goal with
      | |- raises_Exception (match ?x with _ => _ end) => destruct x
      | |- raises_Exception (if ?b then _ else _) => destruct b
      | |- raises_Exception (let '(_, _) := ?x in _) => destruct x
      end ].
Ltac raises := repeat raises_step.

Lemma raises_rgb_to_hls (r g b : T) : raises_Exception (colorsys.rgb_to_hls r g b).
Proof. unfold colorsys.rgb_to_hls. raises. Qed.
#[local] Hint Resolve raises_rgb_to_hls : raises.

Lemma raises_hsv_to_rgb (h s v : T) : raises_Exception (colorsys.hsv_to_rgb h s v).
Proof. unfold colorsys.hsv_to_rgb. raises. Qed.
#[local] Hint Resolve raises_hsv_to_rgb : raises.

Lemma raises_rgb_to_hex (r g b : T) : raises_Exception (rgb_to_hex r g b).
Proof. unfold rgb_to_hex. raises. Qed.
#[local] Hint Resolve raises_rgb_to_hex : raises.

Lemma raises_hex_to_rgb (hex : string) : raises_Exception (hex_to_rgb hex).
Proof. unfold hex_to_rgb, hex_channel. raises. Qed.
#[local] Hint Resolve raises_hex_to_rgb : raises.

Lemma raises_colorString (system : string) (color : pyval T) :
  raises_Exception (colorString system color).
Proof. unfold colorString. raises. Qed.
#[local] Hint Resolve raises_colorString : raises.

Lemma raises_buildItem (c s d : string) (sc dc : pyval T) (i : string) :
  raises_Exception (buildItem c s d sc dc i).
Proof. unfold buildItem. raises. Qed.
#[local] Hint Resolve raises_buildItem : raises.

(** Every entry of the three tables raises exceptions only. *)
Lemma raises_parsers :
  Forall (fun entry => forall s, raises_Exception (entry.2 s)) (parsers (T:=T)).
Proof.
  unfold parsers. repeat constructor; intros s; cbn; try apply raises_Ok;
    unfold HLSHSVParser; raises.
Qed.

Lemma raises_converters_from :
  Forall (fun entry => forall c, raises_Exception (entry.2 c)) (converters_from (T:=T)).
Proof.
  unfold converters_from.
  repeat constructor; intros c; cbn; unfold call3, call1; raises.
Qed.

Lemma raises_converters_to :
  Forall (fun entry => forall r g b, raises_Exception (entry.2 r g b))
         (converters_to (T:=T)).
Proof.
  unfold converters_to.
  repeat constructor; intros r g b; cbn; raises.
Qed.

Lemma dict_getitem_Forall {V : Type} (P : string * V -> Prop)
    (d : list (string * V)) (k : string) (v : V) :
  Forall P d -> dict_getitem d k = Ok v -> P (k, v).
Proof.
  unfold dict_getitem. induction 1 as [|[k' v'] d' Hhd Htl IH]; cbn; [discriminate|].
  destruct (String.eqb_spec k k') as [->|Hne].
  - intros [= <-]. exact Hhd.
  - exact IH.
Qed.

Lemma raises_convert_all (query : Query) (source : string) (color : pyval T)
    (rgb : T * T * T) (loc : string)
    (items : list (string * (T -> T -> T -> result (pyval T)))) :
  Forall (fun entry => forall r g b, raises_Exception (entry.2 r g b)) items ->
  raises_Exception (convert_all query source color rgb loc items).
Proof.
  induction 1 as [|[d f] items' Hf _ IH]; cbn; [apply raises_Ok|].
  destruct (String.eqb source d); [exact IH|].
  destruct rgb as [[r g] b].
  apply raises_bind; [apply Hf|intros dc].
  apply raises_bind; [apply raises_buildItem|intros item].
  apply raises_bind; [exact IH|intros results]. apply raises_Ok.
Qed.

Lemma prog_raises_ret {A : Type} (a : A) : prog_raises_Exception (mret a).
Proof. intros w w' e [=]. Qed.

Lemma prog_raises_lift {A : Type} (r : result A) :
  raises_Exception r -> prog_raises_Exception (lift r).
Proof. intros Hr w w' e [= _ ->]. apply Hr. reflexivity. Qed.

Lemma prog_raises_bind {A B : Type} (m : prog A) (f : A -> prog B) :
  prog_raises_Exception m -> (forall a, prog_raises_Exception (f a)) ->
  prog_raises_Exception (m ≫= f).
Proof.
  intros Hm Hf w w' e. unfold mbind, prog_bind.
  destruct (m w) as [w1 [a|e1]] eqn:Em.
  - apply Hf.
  - intros [= _ <-]. exact (Hm _ _ _ Em).
Qed.

Lemma prog_raises_os_remove (path : string) : prog_raises_Exception (os_remove path).
Proof.
  intros w w' e. unfold os_remove. destruct (files w !! path); [intros [=]|].
  intros [= _ <-]. reflexivity.
Qed.

Lemma prog_raises_delete_old_temp_file : prog_raises_Exception delete_old_temp_file.
Proof.
  intros w w' e. unfold delete_old_temp_file.
  destruct (color_file_location w) as [loc|]; [|intros [=]].
  destruct (String.eqb loc ""); [intros [=]|].
  apply prog_raises_bind; [apply prog_raises_os_remove|].
  intros _ w1 w2 e1 [=].
Qed.

Lemma prog_raises_colorFile (r g b : T) : prog_raises_Exception (colorFile r g b).
Proof.
  unfold colorFile.
  apply prog_raises_bind; [intros w w' e [=]|intros f].
  apply prog_raises_bind.
  - apply prog_raises_lift. unfold colorSVG. raises.
  - intros data. apply prog_raises_bind; [intros w w' e [=]|intros _].
    apply prog_raises_ret.
Qed.

Lemma prog_raises_bind_lift {A B : Type} (r : result A) (f : A -> prog B) :
  raises_Exception r -> (forall a, r = Ok a -> prog_raises_Exception (f a)) ->
  prog_raises_Exception (lift r ≫= f).
Proof.
  intros Hr Hf w w' e. unfold mbind, prog_bind, lift. destruct r as [a|e1].
  - apply (Hf a). reflexivity.
  - intros [= _ <-]. apply Hr. reflexivity.
Qed.

(** Whatever [run] raises is of class [Exception]. *)
Lemma prog_raises_run (query : Query) : prog_raises_Exception (run query).
Proof.
  unfold run. destruct (negb _); [apply prog_raises_ret|].
  apply prog_raises_bind; [apply prog_raises_delete_old_temp_file|intros _].
  apply prog_raises_bind_lift; [apply raises_dict_getitem|intros parser Hparser].
  pose proof (dict_getitem_Forall _ _ _ _ raises_parsers Hparser) as Hp. cbn in Hp.
  apply prog_raises_bind_lift; [apply Hp|intros [color|] _];
    [|apply prog_raises_ret].
  apply prog_raises_bind_lift; [apply raises_dict_getitem|intros from Hfrom].
  pose proof (dict_getitem_Forall _ _ _ _ raises_converters_from Hfrom) as Hf.
  cbn in Hf.
  apply prog_raises_bind_lift; [apply Hf|intros [[r g] b] _].
  apply prog_raises_bind; [apply prog_raises_colorFile|intros loc].
  apply prog_raises_bind; [intros w w' e [=]|intros _].
  apply prog_raises_bind_lift; [|intros; apply prog_raises_ret].
  apply raises_convert_all, raises_converters_to.
Qed.

End RaisesException.

Section HandleQuery.
Context {T : Type} {arith : PyFloat T} {host : Host T}.

(** C8.  [handleQuery] never raises.  When [run] returns, [handleQuery]
    returns the same; when [run] raises, [handleQuery] returns [None],
    the text of the exception is appended to the critical log, and the
    files and the recorded location are as [run] left them. *)
Theorem handleQuery_catches_what_run_raises (query : Query) (w : world) :
  exists (w' : world) (results : option (list Item)),
    handleQuery query w = (w', Ok results)
    /\ match run query w with
       | (w1, Ok returned) => w' = w1 /\ results = returned
       | (w1, Raise e) =>
           results = None
           /\ critical_log w' = (critical_log w1 ++ [format_exception e])%list
           /\ files w' = files w1
           /\ color_file_location w' = color_file_location w1
       end.
Proof.
  unfold handleQuery.
  destruct (run query w) as [w1 [returned|e]] eqn:Erun.
  - exists w1, returned. repeat split.
  - rewrite (prog_raises_run query w w1 e Erun). cbn.
    eexists _, _. repeat split.
Qed.

End HandleQuery.

(** ** One temporary file at a time *)

Section SingleSlot.
Context {T : Type} {arith : PyFloat T} (host : Host T).
Hypothesis mkstemp_fresh : fresh_names host.

Lemma lift_bind {A B : Type} (r : result A) (f : A -> prog B) (w : world) :
  (lift r ≫= f) w = match r with
                    | Ok a => f a w
                    | Raise e => (w, Raise e)
                    end.
Proof. destruct r; reflexivity. Qed.

Lemma delete_old_temp_file_single_slot (fs0 : gmap string string) (w : world) :
  single_slot fs0 w ->
  delete_old_temp_file w
  = ({| files := fs0; color_file_location := None; critical_log := critical_log w |},
     Ok tt).
Proof.
  unfold single_slot, delete_old_temp_file. destruct w as [fs loc log]. cbn.
  destruct loc as [loc|].
  - intros (Hne & _ & [data Hdata] & Hdel).
    destruct (String.eqb_spec loc "") as [->|_]; [contradiction|].
    unfold mbind, prog_bind, os_remove. cbn. rewrite Hdata. cbn. rewrite Hdel.
    reflexivity.
  - intros ->. reflexivity.
Qed.

(** [colorSVG] always returns. *)
Lemma colorSVG_returns (r g b : T) : exists data, colorSVG r g b = Ok data.
Proof. eexists. reflexivity. Qed.

Lemma colorFile_creates (r g b : T) (fs0 : gmap string string) (log : list string) :
  exists data,
    colorFile r g b {| files := fs0; color_file_location := None; critical_log := log |}
    = ({| files := <[mkstemp fs0 := data]> fs0;
          color_file_location := None;
          critical_log := log |}, Ok (mkstemp fs0)).
Proof.
  destruct (colorSVG_returns r g b) as [data Hdata]. exists data.
  unfold colorFile, mbind, prog_bind, NamedTemporaryFile, write, lift.
  cbn [files color_file_location critical_log]. rewrite Hdata.
  cbn [files color_file_location critical_log mret prog_ret].
  rewrite insert_insert_eq. reflexivity.
Qed.

Lemma convert_all_icons (query : Query) (source : string) (color : pyval T)
    (rgb : T * T * T) (loc : string)
    (entries : list (string * (T -> T -> T -> result (pyval T)))) (items : list Item) :
  convert_all query source color rgb loc entries = Ok items ->
  Forall (fun item => icon item = loc) items.
Proof.
  revert items. induction entries as [|[d f] entries' IH]; cbn; intros items.
  - intros [= <-]. constructor.
  - destruct (String.eqb source d); [apply IH|].
    destruct rgb as [[r g] b].
    destruct (f r g b) as [dc|e]; cbn; [|discriminate].
    unfold buildItem.
    destruct (colorString d dc) as [t|e]; cbn; [|discriminate].
    destruct (colorString source color) as [s|e]; cbn; [|discriminate].
    destruct (convert_all query source color (r, g, b) loc entries') as [rest|e];
      cbn; [|discriminate].
    intros [= <-]. constructor; [reflexivity|]. apply IH. reflexivity.
Qed.

(** A path of [run] that ends after the old file was deleted and
    before a new one is made. *)
Ltac stops :=
  intros [= <- <-]; split;
  [reflexivity|right; left; repeat split; discriminate].

(** What one invocation of [run] does to the world: nothing for an
    unknown tag; otherwise the old file is gone, and either no file is
    recorded and no items are returned, or a new file is recorded and
    every item returned shows it. *)
Lemma run_world (fs0 : gmap string string) (query : Query) (w w' : world)
    (r : result (option (list Item))) :
  single_slot fs0 w ->
  run query w = (w', r) ->
  critical_log w' = critical_log w
  /\ (w' = w /\ r = Ok None
      \/ (files w' = fs0 /\ color_file_location w' = None
          /\ forall items, r <> Ok (Some items))
      \/ (exists data,
            files w' = <[mkstemp fs0 := data]> fs0
            /\ color_file_location w' = Some (mkstemp fs0)
            /\ forall items, r = Ok (Some items) ->
                 Forall (fun item => icon item = mkstemp fs0) items)).
Proof.
  intros Hw. unfold run.
  destruct (negb _); [intros [= <- <-]; split; [reflexivity|left; split; reflexivity]|].
  unfold mbind at 1. unfold prog_bind at 1.
  rewrite (delete_old_temp_file_single_slot fs0 w Hw).
  rewrite lift_bind.
  destruct (dict_getitem parsers _) as [parser|e]; [|stops].
  rewrite lift_bind.
  destruct (parser _) as [[color|]|e]; [|stops..].
  rewrite lift_bind.
  destruct (dict_getitem converters_from _) as [from|e]; [|stops].
  rewrite lift_bind.
  destruct (from color) as [[[r0 g] b]|e]; [|stops].
  unfold mbind at 1. unfold prog_bind at 1.
  destruct (colorFile_creates r0 g b fs0 (critical_log w)) as [data ->].
  unfold mbind at 1. unfold prog_bind at 1.
  cbn [set_color_file_location files color_file_location critical_log].
  rewrite lift_bind.
  destruct (convert_all _ _ _ _ _ _) as [items|e] eqn:Eitems;
    intros [= <- <-]; (split; [reflexivity|]); right; right; exists data;
    repeat split.
  - intros items' [= <-]. exact (convert_all_icons _ _ _ _ _ _ _ Eitems).
  - discriminate.
Qed.

Lemma run_single_slot (fs0 : gmap string string) (query : Query) (w : world) :
  single_slot fs0 w -> single_slot fs0 (run query w).1.
Proof.
  intros Hw. destruct (run query w) as [w' r] eqn:Erun. cbn.
  destruct (run_world fs0 query w w' r Hw Erun)
    as [_ [[-> _]|[(Hf & Hl & _)|Hnew]]].
  - exact Hw.
  - unfold single_slot. rewrite Hl. exact Hf.
  - destruct Hnew as (data & Hf & Hl & _). unfold single_slot. rewrite Hl, Hf.
    destruct (mkstemp_fresh fs0) as [Hfresh Hne].
    repeat split; [exact Hne|exact Hfresh| |].
    + rewrite lookup_insert_eq. eauto.
    + rewrite delete_insert_eq. apply delete_id. exact Hfresh.
Qed.

Lemma run_all_single_slot (fs0 : gmap string string) (queries : list Query) (w : world) :
  single_slot fs0 w -> single_slot fs0 (run_all queries w).
Proof.
  revert w. induction queries as [|query queries' IH]; intros w Hw; cbn; [exact Hw|].
  apply IH, run_single_slot, Hw.
Qed.

Lemma single_slot_transient (fs0 : gmap string string) (w : world) :
  single_slot fs0 w -> transient_files fs0 w = recorded_files w.
Proof.
  unfold single_slot, transient_files, recorded_files.
  destruct (color_file_location w) as [loc|].
  - intros (_ & Hfresh & Hlive & Hdel). apply set_eq. intros x.
    rewrite elem_of_difference, elem_of_singleton, !elem_of_dom. rewrite <- Hdel.
    split.
    + intros [Hx Hnx]. destruct (decide (x = loc)) as [->|Hne]; [reflexivity|].
      rewrite lookup_delete_ne in Hnx by congruence. contradiction.
    + intros ->. split; [exact Hlive|]. rewrite lookup_delete_eq.
      intros [data Hdata]. discriminate Hdata.
  - intros ->. apply difference_diag_L.
Qed.

End SingleSlot.

Lemma length_xs (n : nat) : String.length (Example.xs n) = n.
Proof. induction n as [|n IH]; cbn; [reflexivity|]. rewrite IH. reflexivity. Qed.

Lemma example_host_fresh_names {T : Type} {arith : PyFloat T} :
  fresh_names (Example.host (T:=T)).
Proof.
  intros fs. change (mkstemp fs) with (Example.longer_name fs).
  unfold Example.longer_name.
  set (n := max_list (String.length <$> (map_to_list fs).*1)). split.
  - destruct (fs !! Example.xs (S n)) as [data|] eqn:Elookup; [|reflexivity].
    exfalso. apply elem_of_map_to_list in Elookup.
    assert (Hin : String.length (Example.xs (S n))
                  ∈ String.length <$> (map_to_list fs).*1).
    { apply list_elem_of_fmap. eexists. split; [reflexivity|].
      apply list_elem_of_fmap. exists (Example.xs (S n), data).
      split; [reflexivity|exact Elookup]. }
    apply max_list_elem_of_le in Hin. fold n in Hin. rewrite length_xs in Hin. lia.
  - discriminate.
Qed.

Section OneFile.
Context {T : Type} {arith : PyFloat T} (host : Host T).
Hypothesis mkstemp_fresh : fresh_names host.

(** C9.  After any sequence of invocations of [run] from a world with
    no recorded file, the transient files are exactly what
    [color_file_location] records, so there is at most one; and an
    invocation that returns items leaves the directory as it was at the
    start plus one newly created file, which it records and shows in
    every item: the file recorded before is gone. *)
Theorem one_transient_file_at_a_time (fs0 : gmap string string) (queries : list Query) :
  let w := run_all queries (initial_world fs0) in
  transient_files fs0 w = recorded_files w
  /\ (size (transient_files fs0 w) <= 1)%nat
  /\ forall (query : Query) (w' : world) (items : list Item),
       run query w = (w', Ok (Some items)) ->
       exists data : string,
         fs0 !! mkstemp fs0 = None
         /\ files w' = <[mkstemp fs0 := data]> fs0
         /\ color_file_location w' = Some (mkstemp fs0)
         /\ transient_files fs0 w' = {[ mkstemp fs0 ]}
         /\ Forall (fun item => icon item = mkstemp fs0) items.
Proof.
  intros w.
  assert (Hw : single_slot fs0 w).
  { apply run_all_single_slot; [exact mkstemp_fresh|reflexivity]. }
  split; [|split].
  - apply single_slot_transient, Hw.
  - rewrite (single_slot_transient fs0 w Hw). unfold recorded_files.
    destruct (color_file_location w).
    + rewrite size_singleton. lia.
    + rewrite size_empty. lia.
  - intros query w' items Hrun.
    destruct (run_world host fs0 query w w' _ Hw Hrun)
      as [_ [[_ [=]]|[(_ & _ & Hno)|(data & Hf & Hl & Hicons)]]].
    + exfalso. exact (Hno items eq_refl).
    + exists data. destruct (mkstemp_fresh fs0) as [Hfresh _].
      repeat split; [exact Hfresh|exact Hf|exact Hl| |exact (Hicons items eq_refl)].
      assert (Hw' : single_slot fs0 w').
      { pose proof (run_single_slot host mkstemp_fresh fs0 query w Hw) as Hs.
        rewrite Hrun in Hs. exact Hs. }
      rewrite (single_slot_transient fs0 w' Hw'). unfold recorded_files.
      rewrite Hl. reflexivity.
Qed.

End OneFile.

(** The invariant after three queries on the example host: a recognized
    color, a malformed hue payload and another recognized color. *)
Lemma one_transient_file_at_a_time_witness :
  fresh_names (Example.host (T:=float))
  /\ let w := run_all (host:=Example.host)
               [query_of "rgb100,60,20"; query_of "hls1,2"; query_of "hex#fff"]
               (initial_world ∅) in
     transient_files ∅ w = recorded_files w
     /\ (size (transient_files ∅ w) <= 1)%nat
     /\ forall (query : Query) (w' : world) (items : list Item),
          run (host:=Example.host) query w = (w', Ok (Some items)) ->
          exists data : string,
            (∅ : gmap string string) !! Example.longer_name ∅ = None
            /\ files w' = <[Example.longer_name ∅ := data]> ∅
            /\ color_file_location w' = Some (Example.longer_name ∅)
            /\ transient_files ∅ w' = {[ Example.longer_name ∅ ]}
            /\ Forall (fun item => icon item = Example.longer_name ∅) items.
Proof.
  split; [exact example_host_fresh_names|].
  exact (one_transient_file_at_a_time Example.host example_host_fresh_names ∅
           [query_of "rgb100,60,20"; query_of "hls1,2"; query_of "hex#fff"]).
Defined.

Lemma run_rgb_100_60_20_witness :
  recorded_file_exists (initial_world ∅)
  /\ exists (w' : world) (i_hex i_yiq i_hls i_hsl i_hsv : Item),
       run (host:=Example.host) (query_of "rgb100,60,20") (initial_world ∅)
       = (w', Ok (Some [i_hex; i_yiq; i_hls; i_hsl; i_hsv]))
       /\ text i_hex = "#643c14"
       /\ map subtext [i_hex; i_yiq; i_hls; i_hsl; i_hsv]
          = map (fun system => "Converting " ++ "rgb(100, 60, 20)" ++ " to " ++ system)
                ["hex"; "yiq"; "hls"; "hsl"; "hsv"].
Proof.
  split; [exact I|].
  exact (run_rgb_100_60_20 Example.host "rgb100,60,20" (initial_world ∅) I).
Defined.

(** The lightness of pure red, second under ["hls"] and ["hsv"] and
    third under ["hsl"]. *)
Lemma hsl_is_hls_with_fields_exchanged_witness :
  convert_to "hls" (1, 0, 0)%float = Ok (Tuple3 0 50 100)%float
  /\ (50%float = fmul (fdiv (fadd (min3 1%float 0%float 0%float) (max3 1%float 0%float 0%float))
                           (of_int 2)) (of_int 100)
      /\ convert_to "hsl" (1, 0, 0)%float = Ok (Tuple3 0 100 50)%float).
Proof.
  split; [reflexivity|].
  destruct (hsl_is_hls_with_fields_exchanged (T:=float)) as (_ & _ & _ & _ & _ & H).
  exact (H 1%float 0%float 0%float 0%float 50%float 100%float eq_refl).
Defined.

Lemma hsv_entry_is_hls_entry_witness :
  convert_to "hsv" (1, 0, 0)%float = Ok (Tuple3 0 50 100)%float
  /\ 50%float = fmul (fdiv (fadd (min3 1%float 0%float 0%float) (max3 1%float 0%float 0%float))
                           (of_int 2)) (of_int 100).
Proof.
  split; [reflexivity|].
  destruct (hsv_entry_is_hls_entry (T:=float) (host:=Example.host) 1%float 0%float 0%float)
    as (_ & _ & H & _).
  exact (H 0%float 50%float 100%float eq_refl).
Defined.

(** * Further properties of the converters *)

(** ** Exact arithmetic *)



Section ExactArithmetic.
Local Open Scope Q_scope.
























(** ** YIQ *)







End ExactArithmetic.

(** ** Hexadecimal colors *)




Section HexRoundTrip.
Local Open Scope Q_scope.


End HexRoundTrip.

Lemma all_pairs_ok : forallb row_ok all_ascii = true.
Proof. vm_compute. reflexivity. Qed.

Lemma in_all_ascii (a : ascii) : In a all_ascii.
Proof.
  unfold all_ascii. apply in_map_iff. exists (nat_of_ascii a).
  split; [apply ascii_nat_embedding|]. apply in_seq.
  pose proof (nat_ascii_bounded a). lia.
Qed.

Lemma pair_ok_true (a b : ascii) : pair_ok a b = true.
Proof.
  pose proof all_pairs_ok as Hall. rewrite forallb_forall in Hall.
  specialize (Hall a (in_all_ascii a)). unfold row_ok in Hall.
  destruct (is_alnum a) eqn:Ea; [|unfold pair_ok; rewrite Ea; reflexivity].
  rewrite forallb_forall in Hall. exact (Hall b (in_all_ascii b)).
Qed.

Lemma all_bytes_binary64_ok : forallb byte_binary64_ok (map Z.of_nat (seq 0 256)) = true.
Proof. vm_compute. reflexivity. Qed.

Lemma byte_binary64 (n : Z) :
  0 <= n <= 255 ->
  int (min2 (of_int 255) (max2 (of_int 0)
        (fmul (fdiv (of_int n) (of_int 255)) (of_int 255 : float)))) = Ok n.
Proof.
  intros Hn. pose proof all_bytes_binary64_ok as Hall. rewrite forallb_forall in Hall.
  assert (Hok : byte_binary64_ok n = true).
  { apply Hall. apply in_map_iff. exists (Z.to_nat n). split; [lia|]. apply in_seq. lia. }
  unfold byte_binary64_ok in Hok. destruct (int _) as [m|e]; [|discriminate].
  apply Z.eqb_eq in Hok. congruence.
Qed.

(** What [int(_, 16)] makes of two characters of an accepted token. *)
Lemma parse_pair (a b : ascii) :
  is_alnum a = true -> is_alnum b = true ->
  if is_hexdigit a && is_hexdigit b
  then exists n, Hex.parse (String a (String b EmptyString)) = Some n
                 /\ 0 <= n <= 255
                 /\ Hex.format_02x n
                    = String (Str.lower a) (String (Str.lower b) EmptyString)
  else Hex.parse (String a (String b EmptyString)) = None.
Proof.
  intros Ha Hb. pose proof (pair_ok_true a b) as Hok. unfold pair_ok in Hok.
  rewrite Ha, Hb in Hok. cbn [andb] in Hok.
  destruct (Hex.parse _) as [n|].
  - apply andb_true_iff in Hok. destruct Hok as [Hok Htext].
    apply andb_true_iff in Hok. destruct Hok as [Hok Hhi].
    apply andb_true_iff in Hok. destruct Hok as [Hok Hlo].
    rewrite Hok. exists n. split; [reflexivity|]. split; [lia|].
    apply String.eqb_eq. exact Htext.
  - destruct (is_hexdigit a && is_hexdigit b); [discriminate|reflexivity].
Qed.

Lemma alnum_not_hash (a : ascii) : is_alnum a = true -> Ascii.eqb a "#" = false.
Proof.
  intros Ha. destruct (Ascii.eqb_spec a "#") as [->|_]; [discriminate|reflexivity].
Qed.

(** A token that [hexParser] accepts has three or six characters of the
    class of [hex_pattern]. *)
Lemma hexParser_accepts {T : Type} (s hex : string) :
  hexParser (T:=T) s = Some (Tuple1 hex) ->
  Str.forallb is_alnum hex = true
  /\ (String.length hex = 3 \/ String.length hex = 6)%nat.
Proof.
  unfold hexParser. destruct (String.length (Str.lstrip " " s) =? 0)%nat; [discriminate|].
  set (h := Str.lstrip "#" (Str.lstrip " " s)).
  destruct (String.length h =? 3)%nat eqn:E3; cbn [orb negb].
  - apply Nat.eqb_eq in E3. destruct (hex_pattern h) eqn:Ep; [|discriminate].
    intros [= <-]. split; [|left; exact E3].
    destruct h as [|a [|b [|c [|d h']]]]; try discriminate.
    unfold hex_pattern in Ep. cbn in Ep. cbn.
    destruct (Ascii.eqb c newline); cbn in Ep.
    + rewrite andb_false_r in Ep. discriminate.
    + rewrite !andb_true_r in Ep. rewrite !andb_true_r. exact Ep.
  - destruct (String.length h =? 6)%nat eqn:E6; cbn [negb]; [|discriminate].
    apply Nat.eqb_eq in E6. destruct (hex_pattern h) eqn:Ep; [|discriminate].
    intros [= <-]. split; [|right; exact E6].
    destruct h as [|a [|b [|c [|d [|e [|f [|g h']]]]]]]; try discriminate.
    unfold hex_pattern in Ep. cbn in Ep. cbn.
    destruct (Ascii.eqb f newline); cbn in Ep.
    + rewrite andb_false_r in Ep. discriminate.
    + rewrite !andb_true_r in Ep. rewrite !andb_true_r. exact Ep.
Qed.

Section HexTokens.
Context {T : Type} {arith : PyFloat T}.

(** The channels of an accepted token: bytes over 255 when every
    character is a hexadecimal digit, with the token in lower case as
    their text; [ValueError] otherwise. *)
Lemma hex_token_channels (s hex : string) :
  hexParser (T:=T) s = Some (Tuple1 hex) ->
  if Str.forallb is_hexdigit hex
  then exists r g b : Z,
         (0 <= r <= 255 /\ 0 <= g <= 255 /\ 0 <= b <= 255)
         /\ hex_to_rgb hex
            = Ok (fdiv (of_int r) (of_int 255), fdiv (of_int g) (of_int 255),
                  fdiv (of_int b) (of_int 255))
         /\ Hex.format_02x r ++ Hex.format_02x g ++ Hex.format_02x b
            = Str.lowercase (if (String.length hex =? 3)%nat then Str.double hex else hex)
  else hex_to_rgb (T:=T) hex = Raise ValueError.
Proof.
  intros Hacc. destruct (hexParser_accepts s hex Hacc) as [Halnum [Hlen|Hlen]].
  - destruct hex as [|a [|b [|c [|d h']]]]; try discriminate. clear Hlen Hacc.
    cbn in Halnum. rewrite andb_true_r in Halnum.
    apply andb_true_iff in Halnum. destruct Halnum as [Ha Halnum].
    apply andb_true_iff in Halnum. destruct Halnum as [Hb Hc].
    pose proof (parse_pair a a Ha Ha) as P1.
    pose proof (parse_pair b b Hb Hb) as P2.
    pose proof (parse_pair c c Hc Hc) as P3.
    unfold hex_to_rgb, hex_channel. cbn [Str.lstrip]. rewrite (alnum_not_hash a Ha).
    cbn [String.length Nat.eqb Str.double Str.drop Str.take Str.forallb Str.lowercase].
    destruct (is_hexdigit a); cbn [andb] in *; [|rewrite P1; reflexivity].
    destruct P1 as (r & -> & Hr & Tr).
    destruct (is_hexdigit b); cbn [andb] in *; [|rewrite P2; reflexivity].
    destruct P2 as (g & -> & Hg & Tg).
    destruct (is_hexdigit c); cbn [andb] in *; [|rewrite P3; reflexivity].
    destruct P3 as (b' & -> & Hb' & Tb).
    exists r, g, b'. split; [auto|]. split; [reflexivity|].
    rewrite Tr, Tg, Tb. reflexivity.
  - destruct hex as [|a [|b [|c [|d [|e [|f [|g h']]]]]]]; try discriminate.
    clear Hlen Hacc. cbn in Halnum. rewrite andb_true_r in Halnum.
    apply andb_true_iff in Halnum. destruct Halnum as [Ha Halnum].
    apply andb_true_iff in Halnum. destruct Halnum as [Hb Halnum].
    apply andb_true_iff in Halnum. destruct Halnum as [Hc Halnum].
    apply andb_true_iff in Halnum. destruct Halnum as [Hd Halnum].
    apply andb_true_iff in Halnum. destruct Halnum as [He Hf].
    pose proof (parse_pair a b Ha Hb) as P1.
    pose proof (parse_pair c d Hc Hd) as P2.
    pose proof (parse_pair e f He Hf) as P3.
    unfold hex_to_rgb, hex_channel. cbn [Str.lstrip]. rewrite (alnum_not_hash a Ha).
    cbn [String.length Nat.eqb Str.double Str.drop Str.take Str.forallb Str.lowercase].
    destruct (is_hexdigit a), (is_hexdigit b); cbn [andb] in *;
      try (rewrite P1; reflexivity).
    destruct P1 as (r & -> & Hr & Tr).
    destruct (is_hexdigit c), (is_hexdigit d); cbn [andb] in *;
      try (rewrite P2; reflexivity).
    destruct P2 as (g' & -> & Hg & Tg).
    destruct (is_hexdigit e), (is_hexdigit f); cbn [andb] in *;
      try (rewrite P3; reflexivity).
    destruct P3 as (b' & -> & Hb' & Tb).
    exists r, g', b'. split; [auto|]. split; [reflexivity|].
    rewrite Tr, Tg, Tb. reflexivity.
Qed.

(** X4.  For a token that [hexParser] returns, the ["hex"] entry of
    [converters_from] returns three bytes divided by 255 when every
    character of the token is a hexadecimal digit, and raises
    [ValueError] otherwise. *)
Theorem hex_to_rgb_raises_on_other_letters (s hex : string) :
  hexParser (T:=T) s = Some (Tuple1 hex) ->
  if Str.forallb is_hexdigit hex
  then exists r g b : Z,
         (0 <= r <= 255 /\ 0 <= g <= 255 /\ 0 <= b <= 255)
         /\ convert_from "hex" (Tuple1 hex)
            = Ok (fdiv (of_int r) (of_int 255), fdiv (of_int g) (of_int 255),
                  fdiv (of_int b) (of_int 255))
  else convert_from (T:=T) "hex" (Tuple1 hex) = Raise ValueError.
Proof.
  intros Hacc. pose proof (hex_token_channels s hex Hacc) as Hch.
  change (convert_from "hex" (Tuple1 hex)) with (hex_to_rgb (T:=T) hex).
  destruct (Str.forallb is_hexdigit hex); [|exact Hch].
  destruct Hch as (r & g & b & Hbytes & Hrgb & _). exists r, g, b. auto.
Qed.

End HexTokens.

Lemma convert_to_hex {T : Type} {arith : PyFloat T} (r g b : T) :
  convert_to "hex" (r, g, b) = Str_ <$> rgb_to_hex r g b.
Proof. reflexivity. Qed.

(** X5.  On binary64 a token of hexadecimal digits that [hexParser]
    returns comes back from RGB as ["#"] and the token in lower case,
    with each digit of a token of three doubled. *)
Theorem hex_token_roundtrip_binary64 (s hex : string) :
  hexParser (T:=float) s = Some (Tuple1 hex) ->
  Str.forallb is_hexdigit hex = true ->
  roundtrip (T:=float) "hex" (Tuple1 hex)
  = Ok (Str_ ("#" ++ Str.lowercase
                (if (String.length hex =? 3)%nat then Str.double hex else hex))).
Proof.
  intros Hacc Hdigits. pose proof (hex_token_channels s hex Hacc) as Hch.
  rewrite Hdigits in Hch. destruct Hch as (r & g & b & (Hr & Hg & Hb) & Hrgb & Htext).
  unfold roundtrip.
  change (convert_from "hex" (Tuple1 hex)) with (hex_to_rgb (T:=float) hex).
  rewrite Hrgb. cbn [mbind result_bind].
  rewrite convert_to_hex. unfold rgb_to_hex.
  rewrite (byte_binary64 r Hr), (byte_binary64 g Hg), (byte_binary64 b Hb).
  cbn [mbind result_bind fmap result_fmap]. rewrite <- Htext. reflexivity.
Qed.

(** * Further properties of the plugin *)

Section FanOut.
Context {T : Type} {arith : PyFloat T} {host : Host T}.


Lemma convert_all_items (query : Query) (source : string) (color : pyval T)
    (r g b : T) (loc : string)
    (entries : list (string * (T -> T -> T -> result (pyval T)))) (items : list Item) :
  convert_all query source color (r, g, b) loc entries = Ok items ->
  Forall2 (fun item entry =>
             item_for query source color loc item entry.1 (entry.2 r g b))
          items (List.filter (fun entry => negb (String.eqb source entry.1)) entries).
Proof.
  revert items. induction entries as [|[d f] entries' IH]; cbn [convert_all List.filter];
    intros items.
  - intros [= <-]. constructor.
  - cbn [fst snd]. destruct (String.eqb source d); cbn [negb]; [apply IH|].
    destruct (f r g b) as [dc|e] eqn:Ef; cbn [mbind result_bind]; [|discriminate].
    unfold buildItem.
    destruct (colorString d dc) as [t|e] eqn:Et; cbn [mbind result_bind]; [|discriminate].
    destruct (colorString source color) as [s|e] eqn:Es; cbn [mbind result_bind];
      [|discriminate].
    destruct (convert_all query source color (r, g, b) loc entries') as [rest|e];
      cbn [mbind result_bind]; [|discriminate].
    intros [= <-]. constructor; [|apply IH; reflexivity].
    unfold item_for. cbn [id completion icon actions text subtext fst snd].
    rewrite Ef. cbn [mbind result_bind]. rewrite Et, Es. cbn [mbind result_bind].
    repeat split.
Qed.

Lemma known_tag (source : string) :
  dict_contains source (converters_from (T:=T)) = true ->
  In source ["rgb"; "hex"; "yiq"; "hls"; "hsl"; "hsv"].
Proof.
  unfold dict_contains, converters_from. cbn [dict_get].
  repeat match goal with
         | |- context [String.eqb source ?k] =>
             destruct (String.eqb_spec source k) as [->|_]; [cbn; tauto|]
         end.
  discriminate.
Qed.

Lemma colorFile_writes (r g b : T) (w : world) :
  exists data : string,
    colorSVG r g b = Ok data
    /\ colorFile r g b w
       = ({| files := <[mkstemp (files w) := data]> (files w);
             color_file_location := color_file_location w;
             critical_log := critical_log w |}, Ok (mkstemp (files w))).
Proof.
  destruct (colorSVG_returns host r g b) as [data Hdata]. exists data.
  split; [exact Hdata|].
  unfold colorFile, mbind, prog_bind, NamedTemporaryFile, write, lift.
  cbn [files color_file_location critical_log]. rewrite Hdata.
  cbn [files color_file_location critical_log mret prog_ret].
  rewrite insert_insert_eq. reflexivity.
Qed.

(** X7.  [run] returns items only as the full fan-out: the payload was
    parsed and converted to RGB, the file recorded holds the image of
    that color, and there is one item for each of the five other systems,
    in the order of [converters_to], built as [buildItem] builds it. *)
Theorem run_returns_the_full_fan_out (query : Query) (w w' : world) (items : list Item) :
  run query w = (w', Ok (Some items)) ->
  let source := Str.take 3 (string_ query) in
  exists (color : pyval T) (r g b : T) (loc data : string),
    (parser ← dict_getitem parsers source; parser (Str.drop 3 (string_ query)))
    = Ok (Some color)
    /\ convert_from source color = Ok (r, g, b)
    /\ color_file_location w' = Some loc
    /\ colorSVG r g b = Ok data
    /\ files w' !! loc = Some data
    /\ length items = 5%nat
    /\ Forall2 (fun item destination =>
                  item_for query source color loc item destination
                           (convert_to destination (r, g, b)))
               items
               (List.filter (fun destination => negb (String.eqb source destination))
                            ["rgb"; "hex"; "yiq"; "hls"; "hsl"; "hsv"]).
Proof.
  intros Hrun. cbv zeta. unfold run in Hrun.
  set (source := Str.take 3 (string_ query)) in *. clearbody source.
  destruct (dict_contains source converters_from) eqn:Htag; cbn [negb] in Hrun;
    [|discriminate].
  apply known_tag in Htag.
  unfold mbind at 1 in Hrun. unfold prog_bind at 1 in Hrun.
  destruct (delete_old_temp_file w) as [w1 [[]|e]]; [|discriminate].
  rewrite lift_bind in Hrun.
  destruct (dict_getitem parsers source) as [parser|e] eqn:Eparser; [|discriminate].
  rewrite lift_bind in Hrun.
  destruct (parser _) as [[color|]|e] eqn:Eparse; [|discriminate..].
  rewrite lift_bind in Hrun.
  unfold convert_from.
  destruct (dict_getitem converters_from source) as [from|e]; [|discriminate].
  rewrite lift_bind in Hrun.
  destruct (from color) as [[[r g] b]|e] eqn:Efrom; [|discriminate].
  unfold mbind at 1 in Hrun. unfold prog_bind at 1 in Hrun.
  destruct (colorFile_writes r g b w1) as (data & Hdata & Hfile). rewrite Hfile in Hrun.
  unfold mbind at 1 in Hrun. unfold prog_bind at 1 in Hrun.
  cbn [set_color_file_location files color_file_location critical_log] in Hrun.
  rewrite lift_bind in Hrun.
  destruct (convert_all _ _ _ _ _ _) as [items'|e] eqn:Eitems; [|discriminate].
  cbn in Hrun. injection Hrun as <- <-.
  exists color, r, g, b, (mkstemp (files w1)), data.
  split; [exact Eparse|]. split; [exact Efrom|].
  split; [reflexivity|]. split; [exact Hdata|].
  split; [cbn; apply lookup_insert_eq|].
  apply convert_all_items in Eitems. clear -Eitems Htag.
  destruct Htag as [<-|[<-|[<-|[<-|[<-|[<-|[]]]]]]];
    cbn [List.filter converters_to String.eqb Ascii.eqb Bool.eqb negb fst snd] in *;
    repeat match goal with
           | H : Forall2 _ _ (_ :: _) |- _ => inversion H; subst; clear H
           | H : Forall2 _ _ [] |- _ => inversion H; subst; clear H
           end;
    (split; [reflexivity|]);
    repeat first
      [ apply List.Forall2_nil
      | apply List.Forall2_cons;
        [cbv beta; match goal with
         | H : item_for _ _ _ _ ?x _ _ |- item_for _ _ _ _ ?x _ _ => exact H
         end|] ].
Qed.


Lemma delete_old_temp_file_returns (w : world) :
  recorded_file_exists w -> delete_old_temp_file w = (without_old_file w, Ok tt).
Proof.
  unfold recorded_file_exists, delete_old_temp_file, without_old_file.
  destruct (color_file_location w) as [loc|]; [|reflexivity].
  intros [data Hdata]. destruct (String.eqb loc ""); [reflexivity|].
  unfold mbind, prog_bind, os_remove. rewrite Hdata. reflexivity.
Qed.

Lemma parser_known_tag (source : string)
    (parser : string -> result (option (pyval T))) :
  dict_getitem parsers source = Ok parser ->
  dict_contains source (converters_from (T:=T)) = true.
Proof.
  unfold dict_getitem, dict_contains, parsers, converters_from. cbn [dict_get].
  repeat match goal with
         | |- context [String.eqb source ?k] =>
             destruct (String.eqb_spec source k) as [->|_]; [reflexivity|]
         end.
  discriminate.
Qed.

(** X8.  A payload that the parser of its tag rejects by returning
    [False] gives no results, raises nothing and logs nothing; the file
    recorded before is removed and no file is recorded. *)
Theorem run_rejects_payload_quietly (query : Query) (w : world) :
  recorded_file_exists w ->
  (parser ← dict_getitem parsers (Str.take 3 (string_ query));
   parser (Str.drop 3 (string_ query))) = Ok None ->
  run query w = (without_old_file w, Ok None)
  /\ handleQuery query w = (without_old_file w, Ok None).
Proof.
  intros Hw Hparse.
  assert (Hrun : run query w = (without_old_file w, Ok None)).
  { unfold run.
    destruct (dict_getitem parsers (Str.take 3 (string_ query))) as [parser|e] eqn:Ep;
      [|discriminate].
    rewrite (parser_known_tag _ _ Ep). cbn [negb].
    unfold mbind at 1. unfold prog_bind at 1.
    rewrite (delete_old_temp_file_returns w Hw).
    rewrite !lift_bind. cbn [mbind result_bind] in Hparse.
    rewrite Hparse. reflexivity. }
  split; [exact Hrun|]. unfold handleQuery. rewrite Hrun. reflexivity.
Qed.

End FanOut.


Section Ranges.
Local Open Scope Q_scope.



















End Ranges.

(** ** Fields of a payload *)

Lemma split_length (s : string) : length (Str.split "," s) = S (commas s).
Proof.
  induction s as [|c s IH]; cbn [Str.split commas]; [reflexivity|].
  destruct (Ascii.eqb c ","); cbn [length]; [rewrite IH; reflexivity|].
  destruct (Str.split "," s) as [|w ws]; cbn [length] in *; [discriminate|exact IH].
Qed.

Lemma startswith_comma_free (p s : string) :
  Str.startswith p s = true -> commas p = O -> comma_free (String.length p) s = true.
Proof.
  revert s. induction p as [|a p IH]; intros s; [reflexivity|].
  destruct s as [|b s]; [reflexivity|]. cbn [Str.startswith commas String.length comma_free].
  destruct (Ascii.eqb_spec a b) as [<-|_]; [|discriminate].
  destruct (Ascii.eqb a ","); [discriminate|]. intros Hp Hc. cbn [negb andb].
  apply IH; assumption.
Qed.

Lemma remove_from_commas (old : string) (s : string) (skip : nat) :
  old <> "" -> commas old = O -> comma_free skip s = true ->
  commas (Str.remove_from old skip s) = commas s.
Proof.
  intros Hne Hold. revert skip. induction s as [|c s IH]; intros skip; [reflexivity|].
  cbn [Str.remove_from]. destruct skip as [|k].
  - intros _. destruct (Str.startswith old (String c s)) eqn:Hstart.
    + destruct old as [|a old']; [contradiction|].
      cbn [Str.startswith] in Hstart.
      destruct (Ascii.eqb_spec a c) as [<-|_]; [|discriminate].
      cbn [commas] in *. destruct (Ascii.eqb a ","); [discriminate|].
      cbn [String.length]. rewrite Nat.sub_1_r. cbn [Nat.pred].
      apply IH. apply startswith_comma_free; assumption.
    + cbn [commas]. rewrite (IH O eq_refl). reflexivity.
  - cbn [comma_free commas]. destruct (Ascii.eqb c ","); [discriminate|].
    cbn [negb andb]. apply IH.
Qed.

Lemma remove_commas (old s : string) :
  commas old = O -> commas (Str.remove old s) = commas s.
Proof.
  intros Hold. unfold Str.remove. destruct old as [|a old']; [reflexivity|].
  apply remove_from_commas; [discriminate|exact Hold|reflexivity].
Qed.

Section Arity.
Context {T : Type} {arith : PyFloat T}.

(** X12.  [baseParser] returns [False] on every payload that does not
    have exactly two commas: the texts it removes hold no comma, so the
    decorations do not change the number of fields. *)
Theorem baseParser_needs_two_commas (payload : string) :
  commas payload <> 2%nat -> baseParser (T:=T) payload = None.
Proof.
  intros Hn. unfold baseParser.
  set (cleaned := fold_left _ remove_strings payload).
  assert (Hc : commas cleaned = commas payload).
  { subst cleaned. unfold remove_strings.
    cbn [fold_left app]. rewrite !remove_commas by reflexivity. reflexivity. }
  destruct (length (Str.split "," cleaned) =? 3)%nat eqn:E; [|reflexivity].
  apply Nat.eqb_eq in E. rewrite split_length in E. lia.
Qed.

End Arity.

(** ** Bytes on binary64 *)

(** On binary64 a byte divided by 255 and multiplied by 255 is the byte
    again. *)
Lemma byte_scaled_back_binary64 (n : Z) :
  0 <= n <= 255 ->
  fmul (fdiv (of_int n) (of_int 255)) (of_int 255 : float) = of_int n.
Proof.
  intros Hn. assert (Hk : exists k : nat, n = Z.of_nat k /\ (k < 256)%nat).
  { exists (Z.to_nat n). lia. }
  destruct Hk as (k & -> & Hk). clear Hn.
  do 256 (destruct k as [|k]; [vm_compute; reflexivity|]). lia.
Qed.

(** X6.  On binary64 the ["rgb"] entry of [converters_to] gives, for a
    token of hexadecimal digits converted from ["hex"], exactly the
    three integers the token denotes. *)
Theorem hex_token_to_rgb_binary64 (s hex : string) :
  hexParser (T:=float) s = Some (Tuple1 hex) ->
  Str.forallb is_hexdigit hex = true ->
  exists r g b : Z,
    (0 <= r <= 255 /\ 0 <= g <= 255 /\ 0 <= b <= 255)
    /\ (rgb ← convert_from "hex" (Tuple1 hex); convert_to "rgb" rgb)
       = Ok (Tuple3 (of_int r : float) (of_int g) (of_int b))
    /\ Hex.format_02x r ++ Hex.format_02x g ++ Hex.format_02x b
       = Str.lowercase (if (String.length hex =? 3)%nat then Str.double hex else hex).
Proof.
  intros Hacc Hdigits. pose proof (hex_token_channels s hex Hacc) as Hch.
  rewrite Hdigits in Hch. destruct Hch as (r & g & b & (Hr & Hg & Hb) & Hrgb & Htext).
  exists r, g, b. split; [auto|]. split; [|exact Htext].
  change (convert_from "hex" (Tuple1 hex)) with (hex_to_rgb (T:=float) hex).
  rewrite Hrgb. cbn [mbind result_bind].
  change (convert_to "rgb" (?x, ?y, ?z))
    with (Ok (Tuple3 (fmul x (of_int 255 : float)) (fmul y (of_int 255))
                     (fmul z (of_int 255)))).
  rewrite !byte_scaled_back_binary64 by assumption. reflexivity.
Qed.

(** * Instances of the further properties *)

Section ExactInstances.
Local Open Scope Q_scope.








End ExactInstances.

Lemma hex_to_rgb_raises_on_other_letters_witness :
  hexParser (T:=float) "#ggg" = Some (Tuple1 "ggg")
  /\ convert_from (T:=float) "hex" (Tuple1 "ggg") = Raise ValueError.
Proof.
  split; [reflexivity|].
  exact (hex_to_rgb_raises_on_other_letters (T:=float) "#ggg" "ggg" eq_refl).
Defined.

Lemma hex_token_roundtrip_binary64_witness :
  hexParser (T:=float) " #FfA" = Some (Tuple1 "FfA")
  /\ Str.forallb is_hexdigit "FfA" = true
  /\ roundtrip (T:=float) "hex" (Tuple1 "FfA") = Ok (Str_ "#ffffaa").
Proof.
  split; [reflexivity|]. split; [reflexivity|].
  exact (hex_token_roundtrip_binary64 " #FfA" "FfA" eq_refl eq_refl).
Defined.

Lemma hex_token_to_rgb_binary64_witness :
  hexParser (T:=float) "#643c14" = Some (Tuple1 "643c14")
  /\ Str.forallb is_hexdigit "643c14" = true
  /\ exists r g b : Z,
       (0 <= r <= 255 /\ 0 <= g <= 255 /\ 0 <= b <= 255)
       /\ (rgb ← convert_from "hex" (Tuple1 "643c14"); convert_to "rgb" rgb)
          = Ok (Tuple3 (of_int r : float) (of_int g) (of_int b))
       /\ Hex.format_02x r ++ Hex.format_02x g ++ Hex.format_02x b = "643c14".
Proof.
  split; [reflexivity|]. split; [reflexivity|].
  exact (hex_token_to_rgb_binary64 "#643c14" "643c14" eq_refl eq_refl).
Defined.

Lemma baseParser_needs_two_commas_witness :
  commas "1,2" <> 2%nat /\ baseParser (T:=float) "1,2" = None.
Proof.
  assert (H : commas "1,2" <> 2%nat) by (vm_compute; lia).
  split; [exact H|]. exact (baseParser_needs_two_commas (T:=float) "1,2" H).
Defined.

Lemma run_rejects_payload_quietly_witness :
  recorded_file_exists (initial_world ∅)
  /\ (parser ← dict_getitem (parsers (T:=float))
                  (Str.take 3 (string_ (query_of "rgb1,2")));
      parser (Str.drop 3 (string_ (query_of "rgb1,2")))) = Ok None
  /\ run (host:=Example.host) (query_of "rgb1,2") (initial_world ∅)
     = (without_old_file (initial_world ∅), Ok None)
  /\ handleQuery (host:=Example.host) (query_of "rgb1,2") (initial_world ∅)
     = (without_old_file (initial_world ∅), Ok None).
Proof.
  split; [exact I|]. split; [reflexivity|].
  exact (run_rejects_payload_quietly (T:=float) (host:=Example.host)
           (query_of "rgb1,2") (initial_world ∅) I eq_refl).
Defined.

Lemma run_returns_the_full_fan_out_witness :
  let query := query_of "hex#fff" in
  let w := initial_world ∅ in
  let out := run (T:=float) (host:=Example.host) query w in
  let items := match out.2 with Ok (Some items) => items | _ => [] end in
  out = (out.1, Ok (Some items))
  /\ exists (color : pyval float) (r g b : float) (loc data : string),
       (parser ← dict_getitem parsers "hex"; parser "#fff") = Ok (Some color)
       /\ convert_from "hex" color = Ok (r, g, b)
       /\ color_file_location out.1 = Some loc
       /\ colorSVG (host:=Example.host) r g b = Ok data
       /\ files out.1 !! loc = Some data
       /\ length items = 5%nat
       /\ Forall2 (fun item destination =>
                     item_for (host:=Example.host) query "hex" color loc item destination
                              (convert_to destination (r, g, b)))
                  items ["rgb"; "yiq"; "hls"; "hsl"; "hsv"].
Proof.
  intros query w out items.
  assert (H : out = (out.1, Ok (Some items))) by (vm_compute; reflexivity).
  split; [exact H|].
  exact (run_returns_the_full_fan_out (T:=float) (host:=Example.host)
           query w out.1 items H).
Defined.
